(** * docker_compose_manager: deployment manager, orchestrator and tenant registry

    A shallow embedding of
    - [compose/deployment/manager.py]   (class [DeploymentManager]),
    - [compose/orchestration/orchestrator.py] (class [Orchestrator]),
    - [multitenant/models/tenant.py]    (dataclass [Tenant]),
    - [multitenant/managers/tenant_manager.py] (class [TenantManager]),
    followed by the properties of these functions.

    A tenant is modelled as Python has it: an instance dictionary that
    [hasattr] and [setattr] read and write by name, with values of any type.
    The relative import that opens [_load_tenants] and [create_tenant] is
    modelled against the modules the package has. *)

From Stdlib Require Import ZArith String Ascii List Bool Lia.
From stdpp Require Import base option list gmap strings fin_maps.

Set Warnings "-register-all".
Local Open Scope string_scope.
Local Open Scope Z_scope.

(** ** Python values

    The values that [yaml.safe_load] and [json.load] build: [None], booleans,
    integers, floats (a finite double is [m * 2^e]), strings, lists and
    mappings.  A mapping is kept as its list of items; its keys are pairwise
    distinct and [dict_get] reads it.  Keys other than strings never compare
    equal to the string keys the code looks up and are left out. *)

Inductive json : Type :=
| JNull
| JBool (b : bool)
| JInt (z : Z)
| JFloat (m e : Z)
| JStr (s : string)
| JList (l : list json)
| JDict (d : list (string * json)).

Fixpoint dict_get {A : Type} (k : string) (d : list (string * A)) : option A :=
  match d with
  | [] => None
  | (k', v) :: d' => if String.eqb k k' then Some v else dict_get k d'
  end.

(** [k in d] *)
Definition dict_has {A : Type} (k : string) (d : list (string * A)) : bool :=
  match dict_get k d with Some _ => true | None => false end.

Definition keys {A : Type} (d : list (string * A)) : list string := map fst d.

(** [d[key] = value]: a key the mapping holds keeps its place. *)
Fixpoint dict_set {A : Type} (key : string) (value : A) (d : list (string * A))
  : list (string * A) :=
  match d with
  | [] => [(key, value)]
  | (k, v) :: d' =>
      if String.eqb key k then (k, value) :: d' else (k, v) :: dict_set key value d'
  end.

(** ** Exceptions and results *)

Inductive exn : Type :=
| FileNotFoundError (msg : string)
| PermissionError (msg : string)
| OSError (msg : string)           (* another failure of [open] *)
| YAMLError
| AttributeError (attr : string)   (* the object has no attribute [attr], or it is read-only *)
| TypeError (msg : string)
| ValueError (msg : string)
| ModuleNotFoundError (name : string)
| NotFound (id : string)           (* docker.errors.NotFound *)
| APIError (msg : string).         (* docker.errors.APIError *)

Inductive result (A : Type) : Type :=
| Ok (a : A)
| Raise (e : exn).
Arguments Ok {A} a.
Arguments Raise {A} e.

(** Sequencing: an exception ends the computation.  The notations
    [x ← r; k] and [r ;; k] are those of [MBind]. *)
#[global] Instance result_bind : MBind result := fun A B k r =>
  match r with
  | Ok a => k a
  | Raise e => Raise e
  end.

Definition is_ok {A : Type} (r : result A) : bool :=
  match r with Ok _ => true | Raise _ => false end.

(** ** compose/deployment/manager.py *)

Module DeploymentManager.

(** What [open]/[yaml.safe_load] find under a path. *)
Inductive file : Type :=
| Unparsable               (* not YAML: [yaml.safe_load] raises *)
| Document (y : json).     (* the parsed document; an empty file is [JNull] *)

(** [compose_data.get('version', '3')]: only a mapping has [get]. *)
Definition get_version (compose_data : json) : result json :=
  match compose_data with
  | JDict d => Ok (default (JStr "3") (dict_get "version" d))
  | _ => Raise (AttributeError "get")
  end.

(** [version.startswith('3')]: only a string has [startswith]. *)
Definition startswith3 (version : json) : result (bool * string) :=
  match version with
  | JStr s => Ok (String.prefix "3" s, s)
  | _ => Raise (AttributeError "startswith")
  end.

Definition unsupported_version (version : string) : exn :=
  ValueError ("Only Docker Compose v3 is supported, found: " +:+ version).

Definition missing_services : exn :=
  ValueError "Compose file must contain 'services' section".

(** ['services' not in compose_data], reached only for a mapping. *)
Definition lacks_services (compose_data : json) : bool :=
  match compose_data with
  | JDict d => negb (dict_has "services" d)
  | _ => true
  end.

(** The checks of [validate_compose_file] on the loaded document. *)
Definition validate_compose_data (compose_data : json) : result bool :=
  version ← get_version compose_data;
  '(ok, v) ← startswith3 version;
  if negb ok then Raise (unsupported_version v)
  else if lacks_services compose_data then Raise missing_services
  else Ok true.

Definition validate_compose_file (fs : gmap string file) (compose_file : string)
  : result bool :=
  match fs !! compose_file with
  | None => Raise (FileNotFoundError ("Compose file not found: " +:+ compose_file))
  | Some Unparsable => Raise YAMLError
  | Some (Document compose_data) => validate_compose_data compose_data
  end.

(** [deploy_compose]: validates, then returns the result dictionary.  The
    runtime is not touched and [env_vars] is not read. *)
Definition deploy_compose (fs : gmap string file) (compose_file project_name : string)
    (env_vars : option (list (string * string))) : result json :=
  validate_compose_file fs compose_file ;;
  Ok (JDict [ ("project_name", JStr project_name);
              ("compose_file", JStr compose_file);
              ("status", JStr "deployed");
              ("timestamp", JNull) ]).

(** *** The container runtime

    The Docker daemon as the manager sees it through [docker.DockerClient]:
    containers keyed by their id, each with a name, labels and a status. *)

Inductive cstatus : Type := Created | Running | Exited.

Record container : Type := Container {
  cname : string;
  labels : list (string * string);
  status : cstatus
}.

Definition PROJECT_LABEL : string := "com.docker.compose.project".

Definition is_running (c : container) : bool :=
  match status c with Running => true | _ => false end.

(** The filter [{'label': f'com.docker.compose.project={project_name}'}]. *)
Definition has_project (project_name : string) (c : container) : bool :=
  match dict_get PROJECT_LABEL (labels c) with
  | Some v => String.eqb v project_name
  | None => false
  end.

(** Without [all=True] the daemon lists running containers only. *)
Definition listed (all : bool) (project_name : string) (c : container) : bool :=
  (all || is_running c) && has_project project_name c.

(** [client.containers.list(all=.., filters={'label': ..})], as ids. *)
Definition containers_list (all : bool) (project_name : string)
    (daemon : gmap string container) : list string :=
  (map_to_list (filter (fun kv => listed all project_name kv.2) daemon)).*1.

Definition halt (c : container) : container :=
  match status c with
  | Running => Container (cname c) (labels c) Exited
  | _ => c
  end.

(** [container.stop()] *)
Definition container_stop (id : string) (daemon : gmap string container)
  : result (gmap string container) :=
  match daemon !! id with
  | None => Raise (NotFound id)
  | Some c => Ok (<[id := halt c]> daemon)
  end.

(** [container.remove()]: the daemon refuses to remove a running container. *)
Definition container_remove (id : string) (daemon : gmap string container)
  : result (gmap string container) :=
  match daemon !! id with
  | None => Raise (NotFound id)
  | Some c =>
      if is_running c
      then Raise (APIError "cannot remove a running container")
      else Ok (delete id daemon)
  end.

(** [for container in containers: container.op()] *)
Fixpoint for_each (op : string -> gmap string container -> result (gmap string container))
    (ids : list string) (daemon : gmap string container)
  : result (gmap string container) :=
  match ids with
  | [] => Ok daemon
  | id :: ids' => daemon' ← op id daemon; for_each op ids' daemon'
  end.

Definition stop_deployment (daemon : gmap string container) (project_name : string)
  : result (bool * gmap string container) :=
  let containers := containers_list false project_name daemon in
  daemon' ← for_each container_stop containers daemon;
  Ok (true, daemon').

Definition remove_deployment (daemon : gmap string container) (project_name : string)
  : result (bool * gmap string container) :=
  '(_, daemon1) ← stop_deployment daemon project_name;
  let containers := containers_list true project_name daemon1 in
  daemon2 ← for_each container_remove containers daemon1;
  Ok (true, daemon2).

(** *** Listing deployments *)

(** The filter [{'label': 'com.docker.compose.project'}]: the label is set. *)
Definition has_project_label (c : container) : bool :=
  dict_has PROJECT_LABEL (labels c).

(** [client.containers.list(filters={'label': 'com.docker.compose.project'})]:
    the running containers that carry the label, in the order of the
    model's daemon. *)
Definition compose_containers (daemon : gmap string container) : list container :=
  (map_to_list (filter (fun kv => is_running kv.2 && has_project_label kv.2) daemon)).*2.

(** [not tenant or project.startswith(f"{tenant}_")]: [None] and the empty
    string select every project. *)
Definition tenant_matches (tenant : option string) (project : string) : bool :=
  match tenant with
  | None => true
  | Some t => String.eqb t "" || String.prefix (t +:+ "_") project
  end.

(** [if project not in deployments: deployments[project] = {.., 'containers': []}]
    followed by [deployments[project]['containers'].append(name)], on the
    dictionary kept as its items in insertion order. *)
Fixpoint add_container (project name : string) (deployments : list (string * list string))
  : list (string * list string) :=
  match deployments with
  | [] => [(project, [name])]
  | (p, names) :: rest =>
      if String.eqb project p then (p, (names ++ [name])%list) :: rest
      else (p, names) :: add_container project name rest
  end.

(** One turn of the loop of [list_deployments]. *)
Definition group_step (tenant : option string)
    (deployments : list (string * list string)) (c : container)
  : list (string * list string) :=
  match dict_get PROJECT_LABEL (labels c) with
  | Some project =>
      if negb (String.eqb project "") && tenant_matches tenant project
      then add_container project (cname c) deployments
      else deployments
  | None => deployments
  end.

Definition group_deployments (tenant : option string) (containers : list container)
  : list (string * list string) :=
  foldl (group_step tenant) [] containers.

(** The dictionary [list_deployments] builds for a project. *)
Definition deployment_info (entry : string * list string) : json :=
  JDict [ ("project_name", JStr entry.1);
          ("containers", JList (map JStr entry.2));
          ("status", JStr "running") ].

Definition list_deployments (daemon : gmap string container) (tenant : option string)
  : list json :=
  map deployment_info (group_deployments tenant (compose_containers daemon)).

End DeploymentManager.

(** ** compose/orchestration/orchestrator.py *)

Module Orchestrator.

(** [_deploy_single]: [deployment.get('project_name')] is [None] when the key
    is absent; a value that is not a mapping has no [get]. *)
Definition _deploy_single (deployment : json) : result json :=
  match deployment with
  | JDict d =>
      Ok (JDict [ ("project_name", default JNull (dict_get "project_name" d));
                  ("status", JStr "success") ])
  | _ => Raise (AttributeError "get")
  end.

(** [asyncio.gather] with [return_exceptions=True] over the tasks
    [run_in_executor(executor, f, x)], one for each [x]: the outcome of each
    call, a value or the exception it raised, in the order of submission. *)
Definition gather {A B : Type} (f : A -> result B) (xs : list A) : list (result B) :=
  map f xs.

Definition deploy_multiple (deployments : list json) : list (result json) :=
  gather _deploy_single deployments.

Definition _health_check_single (project_name : string) : result bool := Ok true.

(** [dict(pairs)]: a later pair replaces the value of an earlier equal key. *)
Definition dict_of {V : Type} (pairs : list (string * V)) : gmap string V :=
  foldl (fun m kv => <[kv.1 := kv.2]> m) ∅ pairs.

Definition health_check_all (project_names : list string) : gmap string (result bool) :=
  let results := gather _health_check_single project_names in
  dict_of (zip project_names results).

End Orchestrator.

(** ** multitenant/models/tenant.py *)

(** A naive [datetime]: its seven fields, compared in this order. *)
Record datetime : Type := Datetime {
  year : N; month : N; day : N;
  hour : N; minute : N; second : N; microsecond : N
}.

Definition dt_fields (d : datetime) : list N :=
  [year d; month d; day d; hour d; minute d; second d; microsecond d].

Fixpoint lex_leb (a b : list N) : bool :=
  match a, b with
  | [], _ => true
  | _ :: _, [] => false
  | x :: a', y :: b' =>
      if (x <? y)%N then true
      else if (y <? x)%N then false
      else lex_leb a' b'
  end.

(** [a <= b] on datetimes. *)
Definition dt_leb (a b : datetime) : bool := lex_leb (dt_fields a) (dt_fields b).
Definition dt_le (a b : datetime) : Prop := dt_leb a b = true.

(** [n] written with [w] decimal digits, as [%0wd] does for a field in range. *)
Fixpoint pad (w : nat) (n : N) : string :=
  match w with
  | O => ""
  | S w' => pad w' (n / 10)%N +:+ String (ascii_of_N (48 + n mod 10)%N) ""
  end.

(** [datetime.isoformat()] *)
Definition isoformat (d : datetime) : string :=
  pad 4 (year d) +:+ "-" +:+ pad 2 (month d) +:+ "-" +:+ pad 2 (day d) +:+ "T" +:+
  pad 2 (hour d) +:+ ":" +:+ pad 2 (minute d) +:+ ":" +:+ pad 2 (second d) +:+
  (if (microsecond d =? 0)%N then "" else "." +:+ pad 6 (microsecond d)).

(** A value that an attribute or a keyword argument holds: a JSON-like
    value or a [datetime].  Python checks no annotation: any attribute may
    hold any of them.  Lists and mappings hold JSON-like values. *)
Inductive pyval : Type :=
| PJson (j : json)
| PDatetime (d : datetime).

(** A mapping of JSON-like values, seen as a mapping of values. *)
Definition pyvals (d : list (string * json)) : list (string * pyval) :=
  map (fun kv => (kv.1, PJson kv.2)) d.

(** [bool(value)] *)
Definition truthy (value : pyval) : bool :=
  match value with
  | PJson JNull => false
  | PJson (JBool b) => b
  | PJson (JInt z) => negb (z =? 0)
  | PJson (JFloat m _) => negb (m =? 0)
  | PJson (JStr s) => negb (String.eqb s "")
  | PJson (JList l) => match l with [] => false | _ :: _ => true end
  | PJson (JDict d) => match d with [] => false | _ :: _ => true end
  | PDatetime _ => true
  end.

(** What the interpreter, its library and the operating system supply:
    - the successive results of [uuid4()] (as strings) and of
      [datetime.utcnow()];
    - [datetime.fromisoformat], whose accepted spellings differ between
      Python versions ([None] stands for its [ValueError]);
    - [inherited]: the names [hasattr] finds on every instance through
      [object] and the dataclass machinery ([__init__], [__eq__], [__doc__],
      [__dataclass_fields__], ...; the list differs between Python versions),
      apart from [__dict__], [__class__] and [__weakref__].  None of them is a
      data descriptor: assigning to one stores the value on the instance;
    - [open_w name]: what [open(storage_path / name, 'w')] does, namely the
      file it creates or truncates, or the exception it raises.  The file is
      named by its path from the storage directory with [.], [..] and
      repeated separators resolved, so that two paths to one file give one
      name and a file of the directory itself has a name without separator;
    - [open_w_text value]: the same for the name [f"{value}.json"] of a
      value that is not a string, which [str] writes first. *)
Record platform : Type := Platform {
  uuid4 : nat -> string;
  utcnow : nat -> datetime;
  fromisoformat : string -> option datetime;
  inherited : string -> bool;
  open_w : string -> result string;
  open_w_text : pyval -> result string
}.

(** How many uuids have been drawn and how many times the clock was read. *)
Record env : Type := Env { draws : nat; ticks : nat }.

(** ** The modules of the package

    The modules of [docker_compose_manager.multitenant]: the subpackage
    [models] with the module [tenant], which defines the dataclass, and the
    subpackage [managers] with the module [tenant_manager]; the [__init__.py]
    of both subpackages is empty. *)
Definition modules : list string :=
  [ "docker_compose_manager.multitenant";
    "docker_compose_manager.multitenant.models";
    "docker_compose_manager.multitenant.models.tenant";
    "docker_compose_manager.multitenant.managers";
    "docker_compose_manager.multitenant.managers.tenant_manager" ].

(** [from .<name> import ...] executed in a module of [package]: the import
    of the module [package.name]. *)
Definition import_relative (package name : string) : result unit :=
  let module := package +:+ "." +:+ name in
  if existsb (String.eqb module) modules then Ok tt
  else Raise (ModuleNotFoundError module).

Module Tenant.

(** An instance of the dataclass: its dictionary [__dict__], in the order of
    insertion. *)
Definition t : Type := list (string * pyval).

(** The attributes of the class that hold a value: the fields with a plain
    default.  A field with a [default_factory] ([id], [created_at],
    [updated_at], [config], [metadata]) leaves no attribute on the class. *)
Definition class_defaults : list (string * pyval) :=
  [ ("name", PJson (JStr ""));
    ("slug", PJson (JStr ""));
    ("description", PJson (JStr ""));
    ("active", PJson (JBool true));
    ("max_deployments", PJson (JInt 10));
    ("max_containers", PJson (JInt 50));
    ("max_cpu", PJson JNull);
    ("max_memory", PJson JNull) ].

Definition methods : list string := [ "to_dict"; "from_dict" ].

(** The data descriptors an instance inherits: they are read and written
    before the instance dictionary is looked at. *)
Inductive descriptor : Type :=
| D_dict       (* [__dict__]: the instance dictionary itself *)
| D_class      (* [__class__] *)
| D_weakref.   (* [__weakref__]: read-only *)

Definition descriptors : list (string * descriptor) :=
  [ ("__dict__", D_dict); ("__class__", D_class); ("__weakref__", D_weakref) ].

(** [tenant.<key>] for the name of a field: the instance dictionary, then
    the class. *)
Definition get_field (x : t) (key : string) : result pyval :=
  match dict_get key x with
  | Some value => Ok value
  | None =>
      match dict_get key class_defaults with
      | Some value => Ok value
      | None => Raise (AttributeError key)
      end
  end.

(** [bool(tenant.active)] *)
Definition active (x : t) : bool :=
  match get_field x "active" with
  | Ok value => truthy value
  | Raise _ => false
  end.

Section Reflection.
Variable P : platform.

(** [hasattr(tenant, key)] *)
Definition hasattr (x : t) (key : string) : bool :=
  dict_has key x || dict_has key class_defaults || existsb (String.eqb key) methods
  || dict_has key descriptors || inherited P key.

(** [setattr(tenant, key, value)].  [__dict__] takes a mapping, which
    becomes the instance dictionary; [__class__] takes a class, which no
    value here is; [__weakref__] cannot be written.  Every other name is
    stored on the instance, whatever the type of the value and whether or
    not the class has an attribute of that name. *)
Definition setattr (x : t) (key : string) (value : pyval) : result t :=
  match dict_get key descriptors with
  | Some D_dict =>
      match value with
      | PJson (JDict d) => Ok (pyvals d)
      | _ => Raise (TypeError "__dict__ must be set to a dictionary")
      end
  | Some D_class => Raise (TypeError "__class__ must be set to a class")
  | Some D_weakref => Raise (AttributeError "__weakref__")
  | None => Ok (dict_set key value x)
  end.

(** The loop [for key, value in kwargs.items(): if hasattr(tenant, key):
    setattr(tenant, key, value)].  The tenant is changed in place: the
    result is the tenant as the loop leaves it and the exception that ended
    the loop, if one did. *)
Fixpoint update_attrs (x : t) (kwargs : list (string * pyval)) : t * option exn :=
  match kwargs with
  | [] => (x, None)
  | (key, value) :: kwargs' =>
      if hasattr x key then
        match setattr x key value with
        | Ok x' => update_attrs x' kwargs'
        | Raise e => (x, Some e)
        end
      else update_attrs x kwargs'
  end.

End Reflection.

(** [value.isoformat()]: only a [datetime] has the method. *)
Definition isoformat_of (value : pyval) : result pyval :=
  match value with
  | PDatetime d => Ok (PJson (JStr (isoformat d)))
  | PJson _ => Raise (AttributeError "isoformat")
  end.

(** The body of [to_dict]: the thirteen attributes are read in this order,
    and the first that is missing ends the call. *)
Definition to_dict (x : t) : result (list (string * pyval)) :=
  id ← get_field x "id";
  name ← get_field x "name";
  slug ← get_field x "slug";
  description ← get_field x "description";
  active ← get_field x "active";
  created_at ← get_field x "created_at";
  created_at ← isoformat_of created_at;
  updated_at ← get_field x "updated_at";
  updated_at ← isoformat_of updated_at;
  max_deployments ← get_field x "max_deployments";
  max_containers ← get_field x "max_containers";
  max_cpu ← get_field x "max_cpu";
  max_memory ← get_field x "max_memory";
  config ← get_field x "config";
  metadata ← get_field x "metadata";
  Ok [ ("id", id);
       ("name", name);
       ("slug", slug);
       ("description", description);
       ("active", active);
       ("created_at", created_at);
       ("updated_at", updated_at);
       ("max_deployments", max_deployments);
       ("max_containers", max_containers);
       ("max_cpu", max_cpu);
       ("max_memory", max_memory);
       ("config", config);
       ("metadata", metadata) ].

(** [tenant.to_dict()]: a value stored on the instance under the name
    [to_dict] hides the method and cannot be called. *)
Definition call_to_dict (x : t) : result (list (string * pyval)) :=
  if dict_has "to_dict" x then Raise (TypeError "object is not callable")
  else to_dict x.

Section Construction.
Variable P : platform.

(** [Tenant(name=.., slug=.., description=..)]: the generated [__init__]
    assigns the fields in the order of their declaration, and the default
    factories run in that order, [id] first, then [created_at], then
    [updated_at]. *)
Definition new (name slug description : string) (w : env) : t * env :=
  ([ ("id", PJson (JStr (uuid4 P (draws w))));
     ("name", PJson (JStr name));
     ("slug", PJson (JStr slug));
     ("description", PJson (JStr description));
     ("active", PJson (JBool true));
     ("created_at", PDatetime (utcnow P (ticks w)));
     ("updated_at", PDatetime (utcnow P (S (ticks w))));
     ("max_deployments", PJson (JInt 10));
     ("max_containers", PJson (JInt 50));
     ("max_cpu", PJson JNull);
     ("max_memory", PJson JNull);
     ("config", PJson (JDict []));
     ("metadata", PJson (JDict [])) ],
   Env (S (draws w)) (S (S (ticks w)))).

(** [key in ('created_at', 'updated_at')] *)
Definition is_timestamp (key : string) : bool :=
  String.eqb key "created_at" || String.eqb key "updated_at".

(** The value [from_dict] assigns for an entry of the dictionary. *)
Definition loaded_value (key : string) (value : pyval) : result pyval :=
  match value with
  | PJson (JStr s) =>
      if is_timestamp key then
        match fromisoformat P s with
        | Some d => Ok (PDatetime d)
        | None => Raise (ValueError ("Invalid isoformat string: " +:+ s))
        end
      else Ok value
  | _ => Ok value
  end.

(** The loop of [from_dict]. *)
Fixpoint load_attrs (x : t) (data : list (string * pyval)) : result t :=
  match data with
  | [] => Ok x
  | (key, value) :: data' =>
      if hasattr P x key then
        value' ← loaded_value key value;
        x' ← setattr x key value';
        load_attrs x' data'
      else load_attrs x data'
  end.

(** [from_dict]: [cls()] and then the loop. *)
Definition from_dict (data : list (string * pyval)) (w : env) : result t * env :=
  let '(tenant, w') := new "" "" "" w in
  (load_attrs tenant data, w').

End Construction.

End Tenant.

(** ** json.dump *)

(** What [json.load] reads back from the text [json.dump] writes for a
    value: a [datetime] is not serializable. *)
Definition dump_value (value : pyval) : result json :=
  match value with
  | PJson j => Ok j
  | PDatetime _ => Raise (TypeError "Object of type datetime is not JSON serializable")
  end.

Fixpoint dump_items (d : list (string * pyval)) : result (list (string * json)) :=
  match d with
  | [] => Ok []
  | (key, value) :: d' =>
      j ← dump_value value;
      rest ← dump_items d';
      Ok ((key, j) :: rest)
  end.

(** [s.endswith(suffix)] *)
Fixpoint endswith (suffix s : string) : bool :=
  String.eqb s suffix ||
  match s with
  | String _ s' => endswith suffix s'
  | EmptyString => false
  end.

(** [c in s] for a character *)
Fixpoint contains (c : ascii) (s : string) : bool :=
  match s with
  | EmptyString => false
  | String c' s' => Ascii.eqb c c' || contains c s'
  end.

(** ** multitenant/managers/tenant_manager.py *)

Module TenantManager.

(** What [json.load] finds in a file: a value, or text that is no JSON
    document (an empty or a half-written file). *)
Inductive content : Type :=
| NotJSON
| JSON (data : json).

(** The manager: the dictionary [_tenants], the files that [open] reaches
    from the storage directory, each under the name [open_w] gives it, and
    the platform counters. *)
Record state : Type := State {
  _tenants : gmap string Tenant.t;
  files : gmap string content;
  world : env
}.

(** The package of the module [tenant_manager]. *)
Definition package : string := "docker_compose_manager.multitenant.managers".

(** [from .models import Tenant], the first statement of [_load_tenants]
    and of [create_tenant]. *)
Definition import_models : result unit := import_relative package "models".

Definition duplicate_tenant (slug : string) : exn :=
  ValueError ("Tenant with slug '" +:+ slug +:+ "' already exists").

(** [get_tenant] *)
Definition get_tenant (st : state) (slug : string) : option Tenant.t :=
  _tenants st !! slug.

(** [storage_path.glob("*.json")]: the files of the storage directory
    itself whose name ends in [.json], in the order of the model's
    directory. *)
Definition glob_json (storage : gmap string content) : list (string * content) :=
  filter (fun kv => endswith ".json" kv.1 && negb (contains "/" kv.1))
         (map_to_list storage).

(** [list_tenants]: the values of [_tenants]; the model's dictionary does not
    keep the order of insertion, so the order of the list is the model's. *)
Definition list_tenants (st : state) (active_only : bool) : list Tenant.t :=
  let tenants := (map_to_list (_tenants st)).*2 in
  if active_only then filter (fun x => Tenant.active x) tenants else tenants.

Section Operations.
Variable P : platform.

(** [open(self.storage_path / f"{tenant.slug}.json", 'w')] *)
Definition open_tenant_file (tenant : Tenant.t) : result string :=
  slug ← Tenant.get_field tenant "slug";
  match slug with
  | PJson (JStr s) => open_w P (s +:+ ".json")
  | _ => open_w_text P slug
  end.

(** [json.dump(tenant.to_dict(), f, indent=2)] *)
Definition dump_tenant (tenant : Tenant.t) : result (list (string * json)) :=
  d ← Tenant.call_to_dict tenant;
  dump_items d.

(** [_save_tenant]: [open] comes first and empties the file; when
    [to_dict()] or [json.dump] raises after that, the file is left empty or
    half-written. *)
Definition _save_tenant (tenant : Tenant.t) (st : state) : result unit * state :=
  match open_tenant_file tenant with
  | Raise e => (Raise e, st)
  | Ok tenant_file =>
      match dump_tenant tenant with
      | Ok data =>
          (Ok tt,
           State (_tenants st) (<[tenant_file := JSON (JDict data)]> (files st)) (world st))
      | Raise e =>
          (Raise e, State (_tenants st) (<[tenant_file := NotJSON]> (files st)) (world st))
      end
  end.

(** The statements of [create_tenant] after the import.  [kwargs] is the
    dictionary the function receives.  An exception of the loop leaves the
    dictionary as it was; the tenant is stored before it is saved. *)
Definition create_tenant_body (name slug description : string)
    (kwargs : list (string * pyval)) (st : state) : result Tenant.t * state :=
  match _tenants st !! slug with
  | Some _ => (Raise (duplicate_tenant slug), st)
  | None =>
      let '(tenant, w) := Tenant.new P name slug description (world st) in
      let st1 := State (_tenants st) (files st) w in
      match Tenant.update_attrs P tenant kwargs with
      | (_, Some e) => (Raise e, st1)
      | (tenant', None) =>
          let st2 := State (<[slug := tenant']> (_tenants st1)) (files st1) (world st1) in
          match _save_tenant tenant' st2 with
          | (Ok _, st3) => (Ok tenant', st3)
          | (Raise e, st3) => (Raise e, st3)
          end
      end
  end.

(** [create_tenant(name, slug, description, **kwargs)] *)
Definition create_tenant (name slug description : string)
    (kwargs : list (string * pyval)) (st : state) : result Tenant.t * state :=
  match import_models with
  | Ok _ => create_tenant_body name slug description kwargs st
  | Raise e => (Raise e, st)
  end.

(** [update_tenant(slug, **kwargs)]: the tenant object is changed in place,
    so the dictionary sees every assignment made, also when the loop or the
    save raises. *)
Definition update_tenant (slug : string) (kwargs : list (string * pyval))
    (st : state) : result (option Tenant.t) * state :=
  match _tenants st !! slug with
  | None => (Ok None, st)
  | Some tenant =>
      match Tenant.update_attrs P tenant kwargs with
      | (tenant1, Some e) =>
          (Raise e, State (<[slug := tenant1]> (_tenants st)) (files st) (world st))
      | (tenant1, None) =>
          let w := world st in
          let tenant2 := dict_set "updated_at" (PDatetime (utcnow P (ticks w))) tenant1 in
          let st1 := State (<[slug := tenant2]> (_tenants st)) (files st)
                           (Env (draws w) (S (ticks w))) in
          match _save_tenant tenant2 st1 with
          | (Ok _, st2) => (Ok (Some tenant2), st2)
          | (Raise e, st2) => (Raise e, st2)
          end
      end
  end.

(** One turn of the loop of [_load_tenants]: [json.load], [Tenant.from_dict]
    (which builds the default tenant before it reads [data.items()]) and the
    assignment under the slug of the tenant.  The dictionary of the model is
    keyed by strings, as [slug: str] has it; a list or a mapping is no key in
    Python either, and for a slug of another type the model has no key. *)
Definition load_file (data : content) (tenants : gmap string Tenant.t) (w : env)
  : result (gmap string Tenant.t) * env :=
  match data with
  | NotJSON => (Raise (ValueError "JSONDecodeError"), w)
  | JSON (JDict d) =>
      match Tenant.from_dict P (pyvals d) w with
      | (Ok tenant, w') =>
          (slug ← Tenant.get_field tenant "slug";
           match slug with
           | PJson (JStr s) => Ok (<[s := tenant]> tenants)
           | _ => Raise (TypeError "the slug is not a string")
           end, w')
      | (Raise e, w') => (Raise e, w')
      end
  | JSON _ => (Raise (AttributeError "items"), (Tenant.new P "" "" "" w).2)
  end.

(** The loop of [_load_tenants] over the files [glob("*.json")] yields, in
    its order. *)
Fixpoint load_each (tenant_files : list (string * content))
    (tenants : gmap string Tenant.t) (w : env)
  : result (gmap string Tenant.t) * env :=
  match tenant_files with
  | [] => (Ok tenants, w)
  | (_, data) :: rest =>
      match load_file data tenants w with
      | (Ok tenants', w') => load_each rest tenants' w'
      | (Raise e, w') => (Raise e, w')
      end
  end.

(** [_load_tenants]: the import, then the loop. *)
Definition _load_tenants (tenant_files : list (string * content))
    (tenants : gmap string Tenant.t) (w : env)
  : result (gmap string Tenant.t) * env :=
  match import_models with
  | Ok _ => load_each tenant_files tenants w
  | Raise e => (Raise e, w)
  end.

(** [TenantManager(storage_path)] over the files of the storage directory,
    which exists or which [mkdir] has made. *)
Definition init (storage : gmap string content) (w : env) : result state * env :=
  match _load_tenants (glob_json storage) ∅ w with
  | (Ok tenants, w') => (Ok (State tenants storage w'), w')
  | (Raise e, w') => (Raise e, w')
  end.

End Operations.

End TenantManager.

(** ** A concrete platform for examples

    [fromisoformat_canonical] reads back the two spellings [isoformat]
    writes, [YYYY-MM-DDTHH:MM:SS] and [YYYY-MM-DDTHH:MM:SS.ffffff]; every
    Python version accepts these. *)

Definition digit_val (c : ascii) : option N :=
  let n := N_of_ascii c in
  if ((48 <=? n) && (n <=? 57))%N then Some (n - 48)%N else None.

(** Reads exactly [w] digits. *)
Fixpoint read_number (w : nat) (acc : N) (s : string) : option (N * string) :=
  match w with
  | O => Some (acc, s)
  | S w' =>
      match s with
      | String c s' => v ← digit_val c; read_number w' (10 * acc + v)%N s'
      | EmptyString => None
      end
  end.

Definition expect (c : ascii) (s : string) : option string :=
  match s with
  | String c' s' => if Ascii.eqb c c' then Some s' else None
  | EmptyString => None
  end.

Definition fromisoformat_canonical (s : string) : option datetime :=
  '(y, s) ← read_number 4 0 s; s ← expect "-" s;
  '(mo, s) ← read_number 2 0 s; s ← expect "-" s;
  '(d, s) ← read_number 2 0 s; s ← expect "T" s;
  '(h, s) ← read_number 2 0 s; s ← expect ":" s;
  '(mi, s) ← read_number 2 0 s; s ← expect ":" s;
  '(se, s) ← read_number 2 0 s;
  match s with
  | EmptyString => Some (Datetime y mo d h mi se 0)
  | _ => s ← expect "." s;
         '(us, s) ← read_number 6 0 s;
         match s with
         | EmptyString => Some (Datetime y mo d h mi se us)
         | _ => None
         end
  end.


(** The parts of a path between its separators. *)
Fixpoint components (path : string) : list string :=
  match path with
  | EmptyString => [""]
  | String c rest =>
      if Ascii.eqb c "/" then "" :: components rest
      else match components rest with
           | [] => [String c ""]
           | part :: parts => String c part :: parts
           end
  end.

Definition plain_char (c : ascii) : bool :=
  let n := N_of_ascii c in
  ((97 <=? n) && (n <=? 122) || (n =? 95) || (n =? 46))%N.

Fixpoint plain_name (s : string) : bool :=
  match s with
  | EmptyString => true
  | String c s' => plain_char c && plain_name s'
  end.

(** The storage directory of the examples is the working directory.  It has
    no subdirectory, the directories above it cannot be searched, and its
    file system takes only names made of lowercase letters, underscores and
    dots. *)
Definition demo_open_w (name : string) : result string :=
  match components name with
  | "" :: _ :: _ => Raise (PermissionError name)
  | parts =>
      match filter (fun part => negb (String.eqb part "" || String.eqb part ".")) parts with
      | [file] =>
          if plain_name file then Ok file
          else Raise (OSError ("[Errno 22] Invalid argument: " +:+ name))
      | ".." :: _ => Raise (PermissionError name)
      | _ => Raise (FileNotFoundError name)
      end
  end.

(** What [str] writes for a value that is not a string always holds a
    digit, a capital letter, a bracket or a brace: this file system takes no
    such name. *)
Definition demo_open_w_text (value : pyval) : result string :=
  Raise (OSError "[Errno 22] Invalid argument").

(** The names of [inherited] in CPython 3.13. *)
Definition cpython_inherited : list string :=
  [ "__annotations__"; "__dataclass_fields__"; "__dataclass_params__";
    "__delattr__"; "__dir__"; "__doc__"; "__eq__"; "__firstlineno__";
    "__format__"; "__ge__"; "__getattribute__"; "__getstate__"; "__gt__";
    "__hash__"; "__init__"; "__init_subclass__"; "__le__"; "__lt__";
    "__match_args__"; "__module__"; "__ne__"; "__new__"; "__reduce__";
    "__reduce_ex__"; "__replace__"; "__repr__"; "__setattr__"; "__sizeof__";
    "__static_attributes__"; "__str__"; "__subclasshook__" ].

(** A clock that advances one second per reading and numbered uuids. *)
Definition demo_platform : platform :=
  Platform (fun n => "uuid-" +:+ pad 4 (N.of_nat n))
           (fun n => Datetime 2026 2 19 5 (N.of_nat n / 60) (N.of_nat n mod 60) 0)
           fromisoformat_canonical
           (fun key => existsb (String.eqb key) cpython_inherited)
           demo_open_w
           demo_open_w_text.

(** * Vocabulary of the statements

    Functions that describe results, and the sample data of the examples. *)

(** The daemon after [stop_deployment]. *)
Definition stopped (p : string) (d : gmap string DeploymentManager.container)
  : gmap string DeploymentManager.container :=
  (fun c => if DeploymentManager.listed false p c
            then DeploymentManager.halt c else c) <$> d.

(** The result dictionary of a deployment. *)
Definition deployed (compose_file project_name : string) : json :=
  JDict [ ("project_name", JStr project_name);
          ("compose_file", JStr compose_file);
          ("status", JStr "deployed");
          ("timestamp", JNull) ].

(** The names of the containers of [cs] whose project label is [p]. *)
Definition names_of (p : string) (cs : list DeploymentManager.container) : list string :=
  map DeploymentManager.cname
    (filter (fun c => dict_get DeploymentManager.PROJECT_LABEL (DeploymentManager.labels c)
                      = Some p) cs).

(** The value of key [project_name] in a listed deployment. *)
Definition project_of (info : json) : option json :=
  match info with
  | JDict d => dict_get "project_name" d
  | _ => None
  end.


(** ** Sample data *)

Definition web_service : json :=
  JDict [ ("image", JStr "nginx:latest"); ("ports", JList [JStr "8080:80"]) ].

Definition db_service : json :=
  JDict [ ("image", JStr "postgres:16") ].

(** A compose file with both keys, the services mapping being empty. *)
Definition empty_services_manifest : json :=
  JDict [ ("version", JStr "3.8"); ("services", JDict []) ].

Definition empty_services_fs : gmap string DeploymentManager.file :=
  {[ "docker-compose.yml" := DeploymentManager.Document empty_services_manifest ]}.

(** [acme_app1] declares two services, [acme_app2] one. *)
Definition app1_manifest : json :=
  JDict [ ("version", JStr "3.8");
          ("services", JDict [ ("web", web_service); ("db", db_service) ]) ].

Definition app2_manifest : json :=
  JDict [ ("version", JStr "3.8");
          ("services", JDict [ ("web", web_service) ]) ].

Definition acme_fs : gmap string DeploymentManager.file :=
  {[ "app1.yml" := DeploymentManager.Document app1_manifest;
     "app2.yml" := DeploymentManager.Document app2_manifest ]}.

Definition acme_quotas : list (string * pyval) :=
  [ ("max_deployments", PJson (JInt 1)); ("max_containers", PJson (JInt 2)) ].

(** A daemon with two containers of [acme_app1], one of them running, and a
    container of another project: stopping halts the running one, removing
    deletes both and leaves the other project alone. *)
Definition sample_daemon : gmap string DeploymentManager.container :=
  {[ "c1" := DeploymentManager.Container "acme_app1_web_1"
               [ (DeploymentManager.PROJECT_LABEL, "acme_app1") ] DeploymentManager.Running;
     "c2" := DeploymentManager.Container "acme_app1_db_1"
               [ (DeploymentManager.PROJECT_LABEL, "acme_app1") ] DeploymentManager.Exited;
     "c3" := DeploymentManager.Container "globex_app_web_1"
               [ (DeploymentManager.PROJECT_LABEL, "globex_app") ] DeploymentManager.Running ]}.

(** Two tenants, [acme] and [acme_corp], each with a running project. *)
Definition overlap_daemon : gmap string DeploymentManager.container :=
  {[ "c1" := DeploymentManager.Container "acme_shop_1"
               [ (DeploymentManager.PROJECT_LABEL, "acme_shop") ] DeploymentManager.Running;
     "c2" := DeploymentManager.Container "acme_corp_web_1"
               [ (DeploymentManager.PROJECT_LABEL, "acme_corp_web") ] DeploymentManager.Running ]}.


(** [Tenant(name="Acme", slug="acme")], built when no uuid has been drawn
    and the clock has not been read. *)
Definition acme_tenant : Tenant.t :=
  (Tenant.new demo_platform "Acme" "acme" "" (Env 0 0)).1.

(** A manager that holds this tenant. *)
Definition acme_registry : TenantManager.state :=
  TenantManager.State {[ "acme" := acme_tenant ]} ∅ (Env 1 2).

(** A stored dictionary whose two timestamps are in the wrong order. *)
Definition reversed_timestamps : list (string * pyval) :=
  [ ("slug", PJson (JStr "acme"));
    ("created_at", PJson (JStr "2030-01-01T00:00:00"));
    ("updated_at", PJson (JStr "2020-01-01T00:00:00")) ].

(** * Properties *)

(** ** Dates *)

Example isoformat_demo :
  isoformat (Datetime 2026 2 19 5 8 54 542461) = "2026-02-19T05:08:54.542461".
Proof. reflexivity. Qed.

Example fromisoformat_demo :
  fromisoformat_canonical "2026-02-19T05:08:54.542461"
  = Some (Datetime 2026 2 19 5 8 54 542461).
Proof. reflexivity. Qed.

Example fromisoformat_whole_second :
  fromisoformat_canonical (isoformat (Datetime 2030 1 1 0 0 0 0))
  = Some (Datetime 2030 1 1 0 0 0 0).
Proof. reflexivity. Qed.

(** ** The manifest validator *)

Section Validator.
Import DeploymentManager.

Lemma validate_compose_data_dict (d : list (string * json)) (v : string) :
  default (JStr "3") (dict_get "version" d) = JStr v ->
  validate_compose_data (JDict d) =
    if negb (String.prefix "3" v) then Raise (unsupported_version v)
    else if negb (dict_has "services" d) then Raise missing_services
    else Ok true.
Proof.
  intros Hv. unfold validate_compose_data, get_version. simpl.
  rewrite Hv. reflexivity.
Qed.

(** C2, as stated, fails: a manifest whose services section is present but
    empty is accepted; no missing-services error is raised. *)
Lemma validate_accepts_empty_services :
  dict_get "services" [ ("version", JStr "3.8"); ("services", JDict []) ] = Some (JDict [])
  /\ validate_compose_file empty_services_fs "docker-compose.yml" = Ok true
  /\ validate_compose_file empty_services_fs "docker-compose.yml" <> Raise missing_services.
Proof.
  split; [reflexivity|]. split; [reflexivity|]. discriminate.
Qed.

(** C2 (amended): for a manifest that is a mapping whose version (["3"] when
    the key is absent) is a string [v]: if [v] starts with ["3"] and the key
    [services] is present, whatever it holds, validation returns [True]; if
    [v] does not start with ["3"] it fails with the unsupported-version
    error; if [v] starts with ["3"] and the key [services] is absent it fails
    with the missing-services error. *)
Theorem validate_by_version_and_services
    (fs : gmap string file) (compose_file : string)
    (d : list (string * json)) (v : string)
    (Hfile : fs !! compose_file = Some (Document (JDict d)))
    (Hversion : default (JStr "3") (dict_get "version" d) = JStr v) :
  (String.prefix "3" v = true -> dict_has "services" d = true ->
     validate_compose_file fs compose_file = Ok true)
  /\ (String.prefix "3" v = false ->
     validate_compose_file fs compose_file = Raise (unsupported_version v))
  /\ (String.prefix "3" v = true -> dict_has "services" d = false ->
     validate_compose_file fs compose_file = Raise missing_services).
Proof.
  unfold validate_compose_file. rewrite Hfile.
  rewrite (validate_compose_data_dict d v Hversion).
  repeat split.
  - intros -> ->. reflexivity.
  - intros ->. reflexivity.
  - intros -> ->. reflexivity.
Qed.

Lemma validate_by_version_and_services_witness :
  validate_compose_file
    {[ "a.yml" := Document (JDict [ ("version", JStr "2.4"); ("services", JDict []) ]) ]}
    "a.yml"
  = Raise (unsupported_version "2.4").
Proof.
  apply (validate_by_version_and_services
           {[ "a.yml" := Document (JDict [ ("version", JStr "2.4"); ("services", JDict []) ]) ]}
           "a.yml" [ ("version", JStr "2.4"); ("services", JDict []) ] "2.4");
    reflexivity.
Defined.

(** C9: a manifest that parses to a mapping with a services section (empty
    or not) and no [version] key is validated as version ["3"] and accepted. *)
Theorem validate_defaults_version
    (fs : gmap string file) (compose_file : string)
    (d : list (string * json)) (services : json)
    (Hfile : fs !! compose_file = Some (Document (JDict d)))
    (Hnoversion : dict_get "version" d = None)
    (Hservices : dict_get "services" d = Some services) :
  get_version (JDict d) = Ok (JStr "3")
  /\ validate_compose_file fs compose_file = Ok true.
Proof.
  split.
  - unfold get_version. rewrite Hnoversion. reflexivity.
  - unfold validate_compose_file. rewrite Hfile.
    rewrite (validate_compose_data_dict d "3").
    + unfold dict_has. rewrite Hservices. reflexivity.
    + rewrite Hnoversion. reflexivity.
Qed.

Lemma validate_defaults_version_witness :
  get_version (JDict [ ("services", JDict [ ("web", web_service) ]) ]) = Ok (JStr "3")
  /\ validate_compose_file
       {[ "app.yml" := Document (JDict [ ("services", JDict [ ("web", web_service) ]) ]) ]}
       "app.yml" = Ok true.
Proof.
  apply (validate_defaults_version _ "app.yml"
           [ ("services", JDict [ ("web", web_service) ]) ]
           (JDict [ ("web", web_service) ])); reflexivity.
Defined.

(** A version written without quotes is loaded as a number, which has no
    [startswith]: neither [True] nor a [ValueError]. *)
Example validate_numeric_version :
  validate_compose_data
    (JDict [ ("version", JInt 3); ("services", JDict [ ("web", web_service) ]) ])
  = Raise (AttributeError "startswith").
Proof. reflexivity. Qed.

(** The fixture of [tests/conftest.py]. *)
Example validate_sample_compose_file :
  validate_compose_data
    (JDict [ ("version", JStr "3.8");
             ("services", JDict [ ("test", web_service) ]) ])
  = Ok true.
Proof. reflexivity. Qed.

Lemma deploy_compose_valid (fs : gmap string file) (compose_file project_name : string)
    (env_vars : option (list (string * string))) :
  validate_compose_file fs compose_file = Ok true ->
  deploy_compose fs compose_file project_name env_vars =
    Ok (JDict [ ("project_name", JStr project_name);
                ("compose_file", JStr compose_file);
                ("status", JStr "deployed");
                ("timestamp", JNull) ]).
Proof. intros H. unfold deploy_compose. rewrite H. reflexivity. Qed.

End Validator.

(** ** Stopping and removing a deployment *)

Section Teardown.
Import DeploymentManager.
Implicit Types (daemon d : gmap string container) (p : string) (c : container).

Lemma halt_not_running c : is_running (halt c) = false.
Proof. unfold halt, is_running. destruct c as [n l []]; reflexivity. Qed.

Lemma halt_idemp c : halt (halt c) = halt c.
Proof. unfold halt. destruct c as [n l []]; reflexivity. Qed.

Lemma halt_has_project p c : has_project p (halt c) = has_project p c.
Proof. unfold halt, has_project. destruct c as [n l []]; reflexivity. Qed.

Lemma halt_stopped c : is_running c = false -> halt c = c.
Proof. unfold halt, is_running. destruct c as [n l []]; [reflexivity|discriminate|reflexivity]. Qed.

Lemma bind_Ok {A B : Type} (a : A) (k : A -> result B) : Ok a ≫= k = k a.
Proof. reflexivity. Qed.

Lemma for_each_cons op (id : string) (ids : list string) d :
  for_each op (id :: ids) d = op id d ≫= for_each op ids.
Proof. reflexivity. Qed.

Lemma container_stop_Some d id c :
  d !! id = Some c -> container_stop id d = Ok (<[id := halt c]> d).
Proof. intros H. unfold container_stop. rewrite H. reflexivity. Qed.

Lemma container_remove_Some d id c :
  d !! id = Some c -> is_running c = false ->
  container_remove id d = Ok (delete id d).
Proof. intros H Hr. unfold container_remove. rewrite H, Hr. reflexivity. Qed.

Lemma elem_of_containers_list all p d id :
  id ∈ containers_list all p d <-> exists c, d !! id = Some c /\ listed all p c = true.
Proof.
  unfold containers_list. rewrite list_elem_of_fmap. split.
  - intros [[k c] [-> H]]. apply elem_of_map_to_list in H.
    apply map_lookup_filter_Some in H as [H1 H2]. simpl in *.
    exists c. split; [exact H1|]. apply Is_true_true. exact H2.
  - intros [c [H1 H2]]. exists (id, c). split; [reflexivity|].
    apply elem_of_map_to_list. apply map_lookup_filter_Some.
    split; [exact H1|]. simpl. apply Is_true_true. exact H2.
Qed.

Lemma NoDup_containers_list all p d : NoDup (containers_list all p d).
Proof. unfold containers_list. apply NoDup_fst_map_to_list. Qed.

(** Stopping the listed containers one after the other never fails and
    halts exactly those. *)
Lemma for_each_stop (ids : list string) :
  forall d, (forall id, id ∈ ids -> is_Some (d !! id)) ->
  exists d', for_each container_stop ids d = Ok d'
    /\ forall k, d' !! k = if decide (k ∈ ids) then halt <$> d !! k else d !! k.
Proof.
  induction ids as [|a ids IH]; intros d Hin.
  - exists d. split; [reflexivity|]. intros k.
    destruct (decide (k ∈ [])) as [H|_]; [inversion H|reflexivity].
  - destruct (Hin a) as [c Hc]; [left|].
    destruct (IH (<[a := halt c]> d)) as [d' [Hfor Hd']].
    { intros id Hid. destruct (decide (a = id)) as [->|Hne].
      - rewrite lookup_insert_eq. eauto.
      - rewrite lookup_insert_ne by exact Hne. apply Hin. right. exact Hid. }
    exists d'. split.
    { rewrite for_each_cons, (container_stop_Some d a c Hc), bind_Ok. exact Hfor. }
    intros k. rewrite Hd'. destruct (decide (a = k)) as [->|Hne].
    + rewrite lookup_insert_eq, Hc. simpl.
      rewrite (decide_True (P := k ∈ k :: ids)) by left.
      destruct (decide (k ∈ ids)); simpl; [rewrite halt_idemp|]; reflexivity.
    + rewrite lookup_insert_ne by exact Hne.
      destruct (decide (k ∈ ids)) as [Hk|Hk].
      * rewrite (decide_True (P := k ∈ a :: ids)) by (right; exact Hk). reflexivity.
      * rewrite (decide_False (P := k ∈ a :: ids)); [reflexivity|].
        intros H. apply elem_of_cons in H as [->|H]; [apply Hne; reflexivity|apply Hk, H].
Qed.

(** Removing distinct containers none of which runs never fails and
    deletes exactly those. *)
Lemma for_each_remove (ids : list string) :
  forall d, NoDup ids ->
  (forall id, id ∈ ids -> exists c, d !! id = Some c /\ is_running c = false) ->
  exists d', for_each container_remove ids d = Ok d'
    /\ forall k, d' !! k = if decide (k ∈ ids) then None else d !! k.
Proof.
  induction ids as [|a ids IH]; intros d Hnd Hin.
  - exists d. split; [reflexivity|]. intros k.
    destruct (decide (k ∈ [])) as [H|_]; [inversion H|reflexivity].
  - apply NoDup_cons in Hnd as [Ha Hnd].
    destruct (Hin a) as [c [Hc Hrun]]; [left|].
    destruct (IH (delete a d) Hnd) as [d' [Hfor Hd']].
    { intros id Hid. destruct (Hin id) as [c' [Hc' Hrun']]; [right; exact Hid|].
      exists c'. split; [|exact Hrun'].
      rewrite lookup_delete_ne; [exact Hc'|]. intros ->. apply Ha, Hid. }
    exists d'. split.
    { rewrite for_each_cons, (container_remove_Some d a c Hc Hrun), bind_Ok. exact Hfor. }
    intros k. rewrite Hd'. destruct (decide (a = k)) as [->|Hne].
    + rewrite (decide_False (P := k ∈ ids)) by exact Ha. rewrite lookup_delete_eq.
      rewrite (decide_True (P := k ∈ k :: ids)) by left. reflexivity.
    + rewrite lookup_delete_ne by exact Hne.
      destruct (decide (k ∈ ids)) as [Hk|Hk].
      * rewrite (decide_True (P := k ∈ a :: ids)) by (right; exact Hk). reflexivity.
      * rewrite (decide_False (P := k ∈ a :: ids)); [reflexivity|].
        intros H. apply elem_of_cons in H as [->|H]; [apply Hne; reflexivity|apply Hk, H].
Qed.

(** No container of the project (running, if [all] is false): nothing is listed. *)
Lemma containers_list_nil all p d :
  (forall id c, d !! id = Some c -> listed all p c = false) ->
  containers_list all p d = [].
Proof.
  intros H. apply elem_of_nil_inv. intros id Hid.
  apply elem_of_containers_list in Hid as [c [Hc Hl]].
  rewrite (H id c Hc) in Hl. discriminate.
Qed.

Lemma stop_deployment_stopped d p : stop_deployment d p = Ok (true, stopped p d).
Proof.
  unfold stop_deployment.
  destruct (for_each_stop (containers_list false p d) d) as [d' [Hfor Hd']].
  { intros id Hid. apply elem_of_containers_list in Hid as [c [Hc _]]. eauto. }
  rewrite Hfor. simpl. do 2 f_equal. apply map_eq. intros k.
  rewrite Hd'. unfold stopped. rewrite lookup_fmap.
  destruct (decide (k ∈ containers_list false p d)) as [Hk|Hk].
  - apply elem_of_containers_list in Hk as [c [Hc Hl]]. rewrite Hc. simpl.
    rewrite Hl. reflexivity.
  - destruct (d !! k) as [c|] eqn:Hc; [|reflexivity]. simpl.
    destruct (listed false p c) eqn:Hl; [|reflexivity].
    exfalso. apply Hk. apply elem_of_containers_list. eauto.
Qed.

Lemma stopped_none_running d p id c :
  stopped p d !! id = Some c -> listed false p c = false.
Proof.
  unfold stopped. rewrite lookup_fmap. destruct (d !! id) as [c0|]; [|discriminate].
  simpl. intros [= <-]. destruct (listed false p c0) eqn:Hl; [|exact Hl].
  unfold listed. rewrite halt_not_running. reflexivity.
Qed.

Lemma stop_deployment_noop d p :
  (forall id c, d !! id = Some c -> listed false p c = false) ->
  stop_deployment d p = Ok (true, d).
Proof.
  intros H. unfold stop_deployment. rewrite (containers_list_nil false p d H).
  reflexivity.
Qed.

(** [remove_deployment] succeeds and leaves no container of the project. *)
Lemma remove_deployment_removes d p :
  exists d', remove_deployment d p = Ok (true, d')
    /\ forall id c, d' !! id = Some c -> has_project p c = false.
Proof.
  unfold remove_deployment. rewrite stop_deployment_stopped. simpl.
  destruct (for_each_remove (containers_list true p (stopped p d)) (stopped p d))
    as [d' [Hfor Hd']].
  { apply NoDup_containers_list. }
  { intros id Hid. apply elem_of_containers_list in Hid as [c [Hc Hl]].
    exists c. split; [exact Hc|].
    pose proof (stopped_none_running d p id c Hc) as Hs.
    unfold listed in *. simpl in Hl. rewrite Hl in Hs.
    rewrite andb_true_r in Hs. apply orb_false_iff in Hs as [_ Hs]. exact Hs. }
  exists d'. split; [rewrite Hfor; reflexivity|].
  intros id c Hc. rewrite Hd' in Hc.
  destruct (decide (id ∈ containers_list true p (stopped p d))) as [Hk|Hk];
    [discriminate|].
  destruct (has_project p c) eqn:Hp; [|reflexivity].
  exfalso. apply Hk. apply elem_of_containers_list. exists c.
  split; [exact Hc|]. unfold listed. rewrite Hp. reflexivity.
Qed.

Lemma remove_deployment_noop d p :
  (forall id c, d !! id = Some c -> has_project p c = false) ->
  remove_deployment d p = Ok (true, d).
Proof.
  intros H. unfold remove_deployment.
  rewrite stop_deployment_noop.
  2:{ intros id c Hc. unfold listed. rewrite (H id c Hc). apply andb_false_r. }
  simpl. rewrite (containers_list_nil true p d).
  2:{ intros id c Hc. unfold listed. rewrite (H id c Hc). reflexivity. }
  reflexivity.
Qed.

(** C5: [stop_deployment] and [remove_deployment] are idempotent: on every
    daemon state and project name each succeeds, a second call succeeds too
    and leaves the daemon as the first call left it; when the daemon holds no
    container of the project, both succeed and change nothing. *)
Theorem teardown_idempotent daemon p :
  (exists d1, stop_deployment daemon p = Ok (true, d1)
              /\ stop_deployment d1 p = Ok (true, d1))
  /\ (exists d2, remove_deployment daemon p = Ok (true, d2)
              /\ remove_deployment d2 p = Ok (true, d2))
  /\ ((forall id c, daemon !! id = Some c -> has_project p c = false) ->
      stop_deployment daemon p = Ok (true, daemon)
      /\ remove_deployment daemon p = Ok (true, daemon)).
Proof.
  split; [|split].
  - exists (stopped p daemon). split; [apply stop_deployment_stopped|].
    apply stop_deployment_noop. intros id c. apply stopped_none_running.
  - destruct (remove_deployment_removes daemon p) as [d2 [H1 H2]].
    exists d2. split; [exact H1|]. apply remove_deployment_noop. exact H2.
  - intros H. split; [|apply remove_deployment_noop; exact H].
    apply stop_deployment_noop. intros id c Hc. unfold listed.
    rewrite (H id c Hc). apply andb_false_r.
Qed.

End Teardown.

(** ** Batches *)

Section Batches.
Import Orchestrator.

Lemma dict_of_acc_lookup {V : Type} (f : string -> V) (names : list string) :
  forall (m : gmap string V) (n : string),
  foldl (fun m kv => <[kv.1 := kv.2]> m) m (zip names (map f names)) !! n
  = if decide (n ∈ names) then Some (f n) else m !! n.
Proof.
  induction names as [|a names IH]; intros m n.
  - simpl. destruct (decide (n ∈ [])) as [H|_]; [inversion H|reflexivity].
  - simpl. rewrite IH. destruct (decide (n ∈ names)) as [Hn|Hn].
    + rewrite (decide_True (P := n ∈ a :: names)) by (right; exact Hn). reflexivity.
    + destruct (decide (a = n)) as [->|Hne].
      * rewrite lookup_insert_eq.
        rewrite (decide_True (P := n ∈ n :: names)) by left. reflexivity.
      * rewrite lookup_insert_ne by exact Hne.
        rewrite (decide_False (P := n ∈ a :: names)); [reflexivity|].
        intros H. apply elem_of_cons in H as [->|H]; [apply Hne; reflexivity|apply Hn, H].
Qed.

Lemma health_check_all_lookup (names : list string) (n : string) :
  health_check_all names !! n = if decide (n ∈ names) then Some (Ok true) else None.
Proof.
  unfold health_check_all, dict_of, gather.
  rewrite (dict_of_acc_lookup _health_check_single names ∅ n).
  destruct (decide (n ∈ names)); [reflexivity|apply lookup_empty].
Qed.

Lemma health_check_all_dom (names : list string) :
  dom (health_check_all names) = list_to_set names.
Proof.
  apply set_eq. intros n. rewrite elem_of_dom, health_check_all_lookup.
  rewrite elem_of_list_to_set.
  destruct (decide (n ∈ names)) as [H|H]; split; intros H'.
  - exact H.
  - eauto.
  - destruct H' as [x Hx]. discriminate.
  - contradiction.
Qed.

(** C3, as stated, fails for [health_check_all]: a name submitted twice has
    one entry in the returned dictionary, so two inputs give one entry. *)
Lemma health_check_all_merges_duplicates :
  size (health_check_all ["acme_app1"; "acme_app1"]) = 1%nat
  /\ length ["acme_app1"; "acme_app1"] = 2%nat.
Proof. split; reflexivity. Qed.

(** C3 (as the code has it): [deploy_multiple] returns a list with exactly
    one entry per input spec, entry [i] being the outcome of spec [i]: the
    success payload with the spec's project name, or the exception raised,
    kept as a value.  [health_check_all] returns a dictionary whose keys are
    exactly the submitted names, each mapped to [True]: one entry per
    distinct name, hence one per input element when the names are pairwise
    distinct.  No outcome removes or replaces the entry of another unit. *)
Theorem batch_results_cover_input (deployments : list json) (names : list string) :
  length (deploy_multiple deployments) = length deployments
  /\ (forall i, deploy_multiple deployments !! i = _deploy_single <$> deployments !! i)
  /\ dom (health_check_all names) = list_to_set names
  /\ (forall n, n ∈ names -> health_check_all names !! n = Some (Ok true))
  /\ (NoDup names -> size (health_check_all names) = length names).
Proof.
  split; [|split; [|split; [|split]]].
  - unfold deploy_multiple, gather. apply length_map.
  - intros i. unfold deploy_multiple, gather. apply list_lookup_fmap.
  - apply health_check_all_dom.
  - intros n Hn. rewrite health_check_all_lookup.
    rewrite decide_True by exact Hn. reflexivity.
  - intros Hnd. rewrite <- size_dom, health_check_all_dom.
    apply size_list_to_set. exact Hnd.
Qed.

(** A batch in which one spec is not a mapping: three inputs, three
    outcomes, the failure in its place. *)
Example deploy_multiple_partial_failure :
  deploy_multiple
    [ JDict [ ("project_name", JStr "acme_app1") ];
      JStr "acme_app2";
      JDict [ ("compose_file", JStr "c.yml") ] ]
  = [ Ok (JDict [ ("project_name", JStr "acme_app1"); ("status", JStr "success") ]);
      Raise (AttributeError "get");
      Ok (JDict [ ("project_name", JNull); ("status", JStr "success") ]) ].
Proof. reflexivity. Qed.

End Batches.

(** ** Tenant records *)

Lemma dict_get_dict_set {A : Type} (k key : string) (value : A) (d : list (string * A)) :
  dict_get k (dict_set key value d)
  = if String.eqb k key then Some value else dict_get k d.
Proof.
  induction d as [|[k' v'] d IH]; simpl.
  - destruct (String.eqb k key); reflexivity.
  - destruct (String.eqb_spec key k') as [->|Hne]; simpl.
    + destruct (String.eqb k k'); reflexivity.
    + destruct (String.eqb_spec k k') as [->|Hne'].
      * destruct (String.eqb_spec k' key) as [->|_]; [contradiction|reflexivity].
      * exact IH.
Qed.

Lemma dict_has_dict_set {A : Type} (k key : string) (value : A) (d : list (string * A)) :
  dict_has k (dict_set key value d) = String.eqb k key || dict_has k d.
Proof.
  unfold dict_has. rewrite dict_get_dict_set.
  destruct (String.eqb k key); reflexivity.
Qed.

Section Attributes.
Import Tenant.
Variable P : platform.

Lemma get_field_ext (x y : t) (k : string) :
  dict_get k x = dict_get k y -> get_field x k = get_field y k.
Proof. unfold get_field. intros ->. reflexivity. Qed.

Lemma get_field_dict_set (x : t) (k key : string) (value : pyval) :
  get_field (dict_set key value x) k
  = if String.eqb k key then Ok value else get_field x k.
Proof.
  unfold get_field. rewrite dict_get_dict_set.
  destruct (String.eqb k key); reflexivity.
Qed.

Lemma get_field_Some (x : t) (k : string) (value : pyval) :
  dict_get k x = Some value -> get_field x k = Ok value.
Proof. unfold get_field. intros ->. reflexivity. Qed.

(** An assignment that is not to [__dict__] and raises nothing has stored
    the value on the instance. *)
Lemma setattr_Ok (x x' : t) (key : string) (value : pyval) :
  setattr x key value = Ok x' -> key <> "__dict__" -> x' = dict_set key value x.
Proof.
  unfold setattr, descriptors. cbn [dict_get].
  destruct (String.eqb_spec key "__dict__") as [->|_]; [intros _ H; contradiction|].
  destruct (String.eqb_spec key "__class__") as [->|_]; [discriminate|].
  destruct (String.eqb_spec key "__weakref__") as [->|_]; [discriminate|].
  intros [= <-] _. reflexivity.
Qed.

(** Only the three descriptors can make an assignment raise. *)
Lemma setattr_plain (x : t) (key : string) (value : pyval) :
  key <> "__dict__" -> key <> "__class__" -> key <> "__weakref__" ->
  setattr x key value = Ok (dict_set key value x).
Proof.
  intros H1 H2 H3. unfold setattr, descriptors. cbn [dict_get].
  destruct (String.eqb_spec key "__dict__"); [contradiction|].
  destruct (String.eqb_spec key "__class__"); [contradiction|].
  destruct (String.eqb_spec key "__weakref__"); [contradiction|].
  reflexivity.
Qed.

Lemma hasattr_dict_set (x : t) (k key : string) (value : pyval) :
  hasattr P x k = true -> hasattr P (dict_set key value x) k = true.
Proof.
  unfold hasattr. rewrite dict_has_dict_set. intros H.
  destruct (String.eqb k key); [reflexivity|exact H].
Qed.

(** Keywords that name no attribute leave the record as it is. *)
Lemma update_attrs_unknown (kwargs : list (string * pyval)) (x : t) :
  Forall (fun key => hasattr P x key = false) (keys kwargs) ->
  update_attrs P x kwargs = (x, None).
Proof.
  induction kwargs as [|[key value] kwargs IH]; intros HF; [reflexivity|].
  inversion HF as [|? ? Hk HF']; subst. simpl.
  rewrite Hk. apply IH, HF'.
Qed.

(** An attribute the keywords do not name keeps its value, as long as no
    keyword is [__dict__]; this holds also when the loop is cut short. *)
Lemma update_attrs_frame (k : string) (kwargs : list (string * pyval)) :
  ~ In k (keys kwargs) -> ~ In "__dict__" (keys kwargs) ->
  forall x x' r, update_attrs P x kwargs = (x', r) -> dict_get k x' = dict_get k x.
Proof.
  induction kwargs as [|[key value] kwargs IH]; intros Hnot Hdict x x' r; simpl.
  - intros [= <- _]. reflexivity.
  - simpl in Hnot, Hdict.
    apply Decidable.not_or in Hnot as [Hkey Hrest].
    apply Decidable.not_or in Hdict as [Hkd Hdrest].
    destruct (hasattr P x key); [|apply IH; assumption].
    destruct (setattr x key value) as [x1|e] eqn:Hset.
    + intros H. rewrite (IH Hrest Hdrest _ _ _ H).
      rewrite (setattr_Ok _ _ _ _ Hset) by congruence.
      rewrite dict_get_dict_set.
      destruct (String.eqb_spec k key) as [->|_]; [contradiction|reflexivity].
    + intros [= <- _]. reflexivity.
Qed.

(** Without the three descriptors among the keywords the loop runs to its
    end. *)
Lemma update_attrs_completes (kwargs : list (string * pyval)) :
  ~ In "__dict__" (keys kwargs) -> ~ In "__class__" (keys kwargs) ->
  ~ In "__weakref__" (keys kwargs) ->
  forall x, (update_attrs P x kwargs).2 = None.
Proof.
  induction kwargs as [|[key value] kwargs IH]; intros H1 H2 H3 x; [reflexivity|].
  simpl in H1, H2, H3 |- *.
  apply Decidable.not_or in H1 as [? ?].
  apply Decidable.not_or in H2 as [? ?].
  apply Decidable.not_or in H3 as [? ?].
  destruct (hasattr P x key); [|apply IH; assumption].
  rewrite setattr_plain by congruence. apply IH; assumption.
Qed.

(** With pairwise distinct keywords, the one named [k] decides the value of
    an attribute [k] the record has. *)
Lemma update_attrs_set (k : string) (v : pyval) (kwargs : list (string * pyval)) :
  k <> "__dict__" ->
  NoDup (keys kwargs) -> ~ In "__dict__" (keys kwargs) ->
  dict_get k kwargs = Some v ->
  forall x x', hasattr P x k = true ->
    update_attrs P x kwargs = (x', None) -> dict_get k x' = Some v.
Proof.
  intros Hk.
  induction kwargs as [|[key value] kwargs IH]; intros Hnd Hdict Hget x x' Hhas;
    [discriminate|].
  cbn [keys map fst] in Hnd, Hdict. apply NoDup_cons in Hnd as [Hkey Hnd].
  simpl in Hdict. apply Decidable.not_or in Hdict as [Hkd Hdrest].
  cbn [dict_get] in Hget. cbn [update_attrs].
  destruct (String.eqb_spec k key) as [<-|Hne].
  - injection Hget as ->. rewrite Hhas.
    destruct (setattr x k v) as [x1|e] eqn:Hset; [|discriminate].
    intros H. apply setattr_Ok in Hset; [|exact Hk]. subst x1.
    rewrite (update_attrs_frame k kwargs) with (x := dict_set k v x) (r := None).
    + rewrite dict_get_dict_set, String.eqb_refl. reflexivity.
    + intros Hin. apply Hkey. apply list_elem_of_In. exact Hin.
    + exact Hdrest.
    + exact H.
  - destruct (hasattr P x key); [|apply IH; assumption].
    destruct (setattr x key value) as [x1|e] eqn:Hset; [|discriminate].
    apply setattr_Ok in Hset; [|congruence]. subst x1.
    apply IH; try assumption. apply hasattr_dict_set, Hhas.
Qed.

(** The same two facts for the loop of [from_dict]. *)
Lemma load_attrs_frame (k : string) (data : list (string * pyval)) :
  ~ In k (keys data) -> ~ In "__dict__" (keys data) ->
  forall x x', load_attrs P x data = Ok x' -> dict_get k x' = dict_get k x.
Proof.
  induction data as [|[key value] data IH]; intros Hnot Hdict x x'; simpl.
  - intros [= <-]. reflexivity.
  - simpl in Hnot, Hdict.
    apply Decidable.not_or in Hnot as [Hkey Hrest].
    apply Decidable.not_or in Hdict as [Hkd Hdrest].
    destruct (hasattr P x key); [|apply IH; assumption].
    destruct (loaded_value P key value) as [value'|e]; [|discriminate].
    cbn [mbind result_bind].
    destruct (setattr x key value') as [x1|e] eqn:Hset; [|discriminate].
    cbn [mbind result_bind].
    intros H. rewrite (IH Hrest Hdrest _ _ H).
    rewrite (setattr_Ok _ _ _ _ Hset) by congruence.
    rewrite dict_get_dict_set.
    destruct (String.eqb_spec k key) as [->|_]; [contradiction|reflexivity].
Qed.

Lemma load_attrs_set (k : string) (v v' : pyval) (data : list (string * pyval)) :
  k <> "__dict__" ->
  NoDup (keys data) -> ~ In "__dict__" (keys data) ->
  dict_get k data = Some v -> loaded_value P k v = Ok v' ->
  forall x x', hasattr P x k = true ->
    load_attrs P x data = Ok x' -> dict_get k x' = Some v'.
Proof.
  intros Hk.
  induction data as [|[key value] data IH]; intros Hnd Hdict Hget Hval x x' Hhas;
    [discriminate|].
  cbn [keys map fst] in Hnd, Hdict. apply NoDup_cons in Hnd as [Hkey Hnd].
  simpl in Hdict. apply Decidable.not_or in Hdict as [Hkd Hdrest].
  cbn [dict_get] in Hget. cbn [load_attrs].
  destruct (String.eqb_spec k key) as [<-|Hne].
  - injection Hget as ->. rewrite Hhas, Hval. cbn [mbind result_bind].
    destruct (setattr x k v') as [x1|e] eqn:Hset; [|discriminate].
    cbn [mbind result_bind].
    intros H. apply setattr_Ok in Hset; [|exact Hk]. subst x1.
    rewrite (load_attrs_frame k data) with (x := dict_set k v' x).
    + rewrite dict_get_dict_set, String.eqb_refl. reflexivity.
    + intros Hin. apply Hkey. apply list_elem_of_In. exact Hin.
    + exact Hdrest.
    + exact H.
  - destruct (hasattr P x key); [|apply IH; assumption].
    destruct (loaded_value P key value) as [value'|e]; [|discriminate].
    cbn [mbind result_bind].
    destruct (setattr x key value') as [x1|e] eqn:Hset; [|discriminate].
    cbn [mbind result_bind].
    apply setattr_Ok in Hset; [|congruence]. subst x1.
    apply IH; try assumption. apply hasattr_dict_set, Hhas.
Qed.

End Attributes.

(** ** The tenant registry *)

Lemma lex_leb_refl (l : list N) : lex_leb l l = true.
Proof.
  induction l as [|x l IH]; [reflexivity|]. simpl.
  rewrite N.ltb_irrefl. exact IH.
Qed.

Lemma lex_leb_trans (a b c : list N) :
  length a = length b -> length b = length c ->
  lex_leb a b = true -> lex_leb b c = true -> lex_leb a c = true.
Proof.
  revert b c. induction a as [|x a IH]; intros [|y b] [|z c]; simpl;
    try discriminate; try reflexivity.
  intros [= Hab] [= Hbc].
  destruct (N.ltb_spec x y), (N.ltb_spec y x), (N.ltb_spec y z), (N.ltb_spec z y),
    (N.ltb_spec x z), (N.ltb_spec z x);
    try discriminate; try reflexivity; try lia.
  apply IH; assumption.
Qed.

Lemma dt_le_refl (d : datetime) : dt_le d d.
Proof. apply lex_leb_refl. Qed.

Lemma dt_le_trans (a b c : datetime) : dt_le a b -> dt_le b c -> dt_le a c.
Proof. apply lex_leb_trans; reflexivity. Qed.

(** A clock that never steps back gives later readings that are not
    earlier. *)
Lemma clock_monotone (P : platform) :
  (forall n, dt_le (utcnow P n) (utcnow P (S n))) ->
  forall n m, (n <= m)%nat -> dt_le (utcnow P n) (utcnow P m).
Proof.
  intros Hstep n m Hle. induction Hle as [|m _ IH]; [apply dt_le_refl|].
  eapply dt_le_trans; [exact IH|apply Hstep].
Qed.

(** The module that [from .models import Tenant] names is not there. *)
Example import_models_raises :
  TenantManager.import_models
  = Raise (ModuleNotFoundError "docker_compose_manager.multitenant.managers.models").
Proof. reflexivity. Qed.

Section Registry.
Import TenantManager.
Variable P : platform.

(** [_save_tenant] touches neither the dictionary nor the counters. *)
Lemma _save_tenant_tenants (tenant : Tenant.t) st :
  _tenants (_save_tenant P tenant st).2 = _tenants st
  /\ world (_save_tenant P tenant st).2 = world st.
Proof.
  unfold _save_tenant. destruct (open_tenant_file P tenant); [|split; reflexivity].
  destruct (dump_tenant tenant); split; reflexivity.
Qed.

(** What [_save_tenant] returns and leaves, by the outcome of [open] and of
    the dump. *)
Lemma _save_tenant_cases (tenant : Tenant.t) st :
  match open_tenant_file P tenant, dump_tenant tenant with
  | Ok f, Ok data =>
      _save_tenant P tenant st
      = (Ok tt, State (_tenants st) (<[f := JSON (JDict data)]> (files st)) (world st))
  | Ok f, Raise e =>
      _save_tenant P tenant st
      = (Raise e, State (_tenants st) (<[f := NotJSON]> (files st)) (world st))
  | Raise e, _ => _save_tenant P tenant st = (Raise e, st)
  end.
Proof.
  unfold _save_tenant. destruct (open_tenant_file P tenant); [|reflexivity].
  destruct (dump_tenant tenant); reflexivity.
Qed.

(** [update_tenant] for a registered tenant, by the outcome of the loop. *)
Lemma update_tenant_Some slug kwargs st tenant :
  get_tenant st slug = Some tenant ->
  update_tenant P slug kwargs st =
    match Tenant.update_attrs P tenant kwargs with
    | (tenant1, Some e) =>
        (Raise e, State (<[slug := tenant1]> (_tenants st)) (files st) (world st))
    | (tenant1, None) =>
        let tenant2 :=
          dict_set "updated_at" (PDatetime (utcnow P (ticks (world st)))) tenant1 in
        let saved :=
          _save_tenant P tenant2
            (State (<[slug := tenant2]> (_tenants st)) (files st)
                   (Env (draws (world st)) (S (ticks (world st))))) in
        (match saved.1 with Ok _ => Ok (Some tenant2) | Raise e => Raise e end, saved.2)
    end.
Proof.
  unfold get_tenant, update_tenant. intros ->.
  destruct (Tenant.update_attrs P tenant kwargs) as [tenant1 [e|]]; [reflexivity|].
  cbv zeta. destruct (_save_tenant P _ _) as [[[]|e] st2]; reflexivity.
Qed.

(** C6: the round trip cannot start.  The first statement of
    [create_tenant] is [from .models import Tenant], and the package
    [multitenant.managers] has no module [models]: on the input of the
    repository's own test ([test_tenant_manager_create]) the constructor of
    the manager raises [ModuleNotFoundError], and so does [create_tenant] on
    every manager; nothing is stored, and [get_tenant] finds no record. *)
Theorem create_then_get_import_error :
  (TenantManager.init P ∅ (Env 0 0)).1
  = Raise (ModuleNotFoundError "docker_compose_manager.multitenant.managers.models")
  /\ (forall st,
        create_tenant P "Test Tenant" "test_tenant" "Test description" [] st
        = (Raise (ModuleNotFoundError "docker_compose_manager.multitenant.managers.models"),
           st))
  /\ get_tenant
       (create_tenant P "Test Tenant" "test_tenant" "Test description" []
          (State ∅ ∅ (Env 0 0))).2 "test_tenant" = None.
Proof. split; [reflexivity|]. split; reflexivity. Qed.

(** C7: the import comes before the membership test, so a call with a slug
    that is registered raises [ModuleNotFoundError], not the duplicate
    [ValueError]; a call with a free slug raises the same error.  The
    manager is unchanged in both cases. *)
Theorem create_duplicate_import_error name slug description kwargs st :
  (create_tenant P name slug description kwargs st).1
  = Raise (ModuleNotFoundError "docker_compose_manager.multitenant.managers.models")
  /\ (create_tenant P name slug description kwargs st).1 <> Raise (duplicate_tenant slug)
  /\ (create_tenant P name slug description kwargs st).2 = st.
Proof. split; [reflexivity|]. split; [discriminate|reflexivity]. Qed.

(** C10 (as the code has it): for a registered tenant, keywords none of
    which [hasattr] finds on the record are dropped.  The record held under
    the slug afterwards is the old one with [updated_at] set to the clock
    reading, every other attribute as before, and the call never returns
    [None].  It returns that record when the save succeeds; when [open]
    refuses the file of the record's slug, or [to_dict()] or [json.dump]
    raises on the record, that exception leaves [update_tenant], the file
    that was opened being left without a JSON document. *)
Theorem update_unknown_keys slug kwargs st tenant
    (Hget : get_tenant st slug = Some tenant)
    (Hunknown : Forall (fun key => Tenant.hasattr P tenant key = false) (keys kwargs)) :
  exists tenant' result st',
    update_tenant P slug kwargs st = (result, st')
    /\ tenant' = dict_set "updated_at" (PDatetime (utcnow P (ticks (world st)))) tenant
    /\ get_tenant st' slug = Some tenant'
    /\ Tenant.get_field tenant' "updated_at" = Ok (PDatetime (utcnow P (ticks (world st))))
    /\ (forall key, key <> "updated_at" -> dict_get key tenant' = dict_get key tenant)
    /\ result <> Ok None
    /\ match open_tenant_file P tenant', dump_tenant tenant' with
       | Ok f, Ok data =>
           result = Ok (Some tenant') /\ files st' = <[f := JSON (JDict data)]> (files st)
       | Ok f, Raise e =>
           result = Raise e /\ files st' = <[f := NotJSON]> (files st)
       | Raise e, _ =>
           result = Raise e /\ files st' = files st
       end.
Proof.
  rewrite (update_tenant_Some slug kwargs st tenant Hget).
  rewrite (update_attrs_unknown P kwargs tenant Hunknown). cbv zeta.
  set (tenant' := dict_set "updated_at" _ tenant).
  set (st1 := State _ _ _).
  pose proof (_save_tenant_cases tenant' st1) as Hsave.
  pose proof (_save_tenant_tenants tenant' st1) as [Hten _].
  exists tenant'. eexists. eexists. split; [reflexivity|]. split; [reflexivity|].
  split; [unfold get_tenant; cbn [snd]; rewrite Hten; apply lookup_insert_eq|].
  split; [unfold tenant'; rewrite get_field_dict_set; reflexivity|].
  split.
  { intros key Hkey. unfold tenant'. rewrite dict_get_dict_set.
    destruct (String.eqb_spec key "updated_at"); [contradiction|reflexivity]. }
  destruct (open_tenant_file P tenant') as [f|e].
  - destruct (dump_tenant tenant') as [data|e]; rewrite Hsave; cbn [fst snd];
      (split; [discriminate|split; reflexivity]).
  - rewrite Hsave. cbn [fst snd]. split; [discriminate|split; reflexivity].
Qed.

End Registry.

Example acme_registry_holds_acme :
  TenantManager.get_tenant acme_registry "acme" = Some acme_tenant.
Proof. reflexivity. Qed.

(** A keyword that no attribute answers to is not found on [acme_tenant]. *)
Example colour_is_no_attribute :
  Tenant.hasattr demo_platform acme_tenant "colour" = false
  /\ Tenant.hasattr demo_platform acme_tenant "__dict__" = true
  /\ Tenant.hasattr demo_platform acme_tenant "__eq__" = true.
Proof. repeat split; reflexivity. Qed.

Lemma update_unknown_keys_witness :
  exists tenant' st',
    TenantManager.update_tenant demo_platform "acme"
      [ ("colour", PJson (JStr "red")); ("priority", PJson (JInt 3)) ]
      acme_registry
    = (Ok (Some tenant'), st')
    /\ tenant' = dict_set "updated_at" (PDatetime (Datetime 2026 2 19 5 0 2 0)) acme_tenant
    /\ TenantManager.get_tenant st' "acme" = Some tenant'
    /\ Tenant.get_field tenant' "id" = Ok (PJson (JStr "uuid-0000"))
    /\ is_Some (TenantManager.files st' !! "acme.json").
Proof.
  destruct (update_unknown_keys demo_platform "acme"
              [ ("colour", PJson (JStr "red")); ("priority", PJson (JInt 3)) ]
              acme_registry acme_tenant)
    as (tenant' & result & st' & Hupd & Htenant & Hread & _ & _ & _ & Hsave).
  - reflexivity.
  - repeat constructor.
  - assert (TenantManager.open_tenant_file demo_platform tenant' = Ok "acme.json") as Hopen
      by (subst tenant'; reflexivity).
    rewrite Hopen in Hsave.
    destruct (TenantManager.dump_tenant tenant') as [data|e] eqn:Hdump;
      [|subst tenant'; vm_compute in Hdump; discriminate].
    destruct Hsave as [-> Hfiles].
    exists tenant', st'. split; [exact Hupd|]. split; [exact Htenant|].
    split; [exact Hread|]. split; [subst tenant'; reflexivity|].
    rewrite Hfiles, lookup_insert_eq. eauto.
Defined.

(** C10, as stated, fails: an update whose only keyword names no attribute
    raises when the record cannot be saved.  The tenant held under [a/b]
    has a slug whose file lies in a directory that does not exist; the
    second has a [created_at] that is no [datetime] (the integer a stored
    dictionary gave it), which [to_dict()] cannot write. *)
Lemma update_unknown_key_raises :
  (let tenant := (Tenant.new demo_platform "A" "a/b" "" (Env 0 0)).1 in
   Tenant.hasattr demo_platform tenant "colour" = false
   /\ (TenantManager.update_tenant demo_platform "a/b" [ ("colour", PJson (JStr "red")) ]
        (TenantManager.State {[ "a/b" := tenant ]} ∅ (Env 1 2))).1
      = Raise (FileNotFoundError "a/b.json"))
  /\ (let tenant := dict_set "created_at" (PJson (JInt 5)) acme_tenant in
      (Tenant.from_dict demo_platform
         [ ("name", PJson (JStr "Acme")); ("slug", PJson (JStr "acme"));
           ("created_at", PJson (JInt 5)) ] (Env 0 0)).1 = Ok tenant
      /\ Tenant.hasattr demo_platform tenant "colour" = false
      /\ (TenantManager.update_tenant demo_platform "acme" [ ("colour", PJson (JStr "red")) ]
           (TenantManager.State {[ "acme" := tenant ]} ∅ (Env 1 2))).1
         = Raise (AttributeError "isoformat")).
Proof. split; [split|split; [|split]]; vm_compute; reflexivity. Qed.

(** ** Identity fields under update *)

(** C4, as stated, fails for [id]: an update that passes [id] replaces the
    stored id, by a value of any type. *)
Lemma update_overwrites_id :
  (tenant ← TenantManager.get_tenant acme_registry "acme";
   Some (Tenant.get_field tenant "id")) = Some (Ok (PJson (JStr "uuid-0000")))
  /\ is_ok (TenantManager.update_tenant demo_platform "acme"
              [ ("id", PJson (JStr "other-id")) ] acme_registry).1 = true
  /\ (tenant ← TenantManager.get_tenant
        (TenantManager.update_tenant demo_platform "acme"
           [ ("id", PJson (JStr "other-id")) ] acme_registry).2 "acme";
      Some (Tenant.get_field tenant "id")) = Some (Ok (PJson (JStr "other-id")))
  /\ (tenant ← TenantManager.get_tenant
        (TenantManager.update_tenant demo_platform "acme"
           [ ("id", PJson (JInt 7)) ] acme_registry).2 "acme";
      Some (Tenant.get_field tenant "id")) = Some (Ok (PJson (JInt 7))).
Proof. repeat split; vm_compute; reflexivity. Qed.

(** The keyword [__dict__] replaces every attribute of the instance at
    once, the slug included; the record stays under its key. *)
Example update_replaces_dict :
  (tenant ← TenantManager.get_tenant
     (TenantManager.update_tenant demo_platform "acme"
        [ ("__dict__", PJson (JDict [ ("slug", JStr "other") ])) ] acme_registry).2 "acme";
   Some (Tenant.get_field tenant "slug", Tenant.get_field tenant "id"))
  = Some (Ok (PJson (JStr "other")), Raise (AttributeError "id")).
Proof. vm_compute. reflexivity. Qed.

Section Identity.
Import TenantManager.
Variable P : platform.

(** C4 (as the code has it): the record stays under its key, which is
    [update_tenant]'s own parameter [slug] (so the keyword dictionary never
    holds a keyword [slug]), and no other key changes.  Unless a keyword is
    [__dict__], the record keeps the value of its attribute [slug] through
    the update, whether the call returns or raises, and it keeps its id when
    no keyword is named [id].  A keyword [id] replaces the id of a record
    that has one with the value passed, of whatever type: no field is
    treated as immutable. *)
Theorem update_keeps_slug slug kwargs st tenant result st'
    (Hget : get_tenant st slug = Some tenant)
    (Hupdate : update_tenant P slug kwargs st = (result, st')) :
  exists tenant',
    get_tenant st' slug = Some tenant'
    /\ (forall k, k <> slug -> get_tenant st' k = get_tenant st k)
    /\ (forall r, result = Ok r -> r = Some tenant')
    /\ (~ In "slug" (keys kwargs) -> ~ In "__dict__" (keys kwargs) ->
        Tenant.get_field tenant' "slug" = Tenant.get_field tenant "slug")
    /\ (~ In "id" (keys kwargs) -> ~ In "__dict__" (keys kwargs) ->
        Tenant.get_field tenant' "id" = Tenant.get_field tenant "id")
    /\ (forall v, NoDup (keys kwargs) -> ~ In "__dict__" (keys kwargs) ->
                  dict_get "id" kwargs = Some v ->
                  Tenant.hasattr P tenant "id" = true ->
                  is_ok result = true
                  \/ (~ In "__class__" (keys kwargs) /\ ~ In "__weakref__" (keys kwargs)) ->
                  Tenant.get_field tenant' "id" = Ok v).
Proof.
  rewrite (update_tenant_Some P slug kwargs st tenant Hget) in Hupdate.
  destruct (Tenant.update_attrs P tenant kwargs) as [t1 r] eqn:Hattrs.
  assert (forall k, ~ In k (keys kwargs) -> ~ In "__dict__" (keys kwargs) ->
                    Tenant.get_field t1 k = Tenant.get_field tenant k) as Hframe.
  { intros k Hk Hdict. apply get_field_ext.
    apply (update_attrs_frame P k kwargs Hk Hdict _ _ _ Hattrs). }
  destruct r as [e|].
  - injection Hupdate as <- <-. exists t1.
    split; [unfold get_tenant; simpl; apply lookup_insert_eq|].
    split.
    { intros k Hk. unfold get_tenant. simpl. apply lookup_insert_ne. congruence. }
    split; [intros r [=]|]. split; [apply Hframe|]. split; [apply Hframe|].
    intros v _ Hdict _ _ [Hok|[Hc Hw]]; [discriminate|].
    pose proof (update_attrs_completes P kwargs Hdict Hc Hw tenant) as Hnone.
    rewrite Hattrs in Hnone. discriminate.
  - cbv zeta in Hupdate.
    set (t2 := dict_set "updated_at" _ t1) in Hupdate.
    set (st1 := State _ _ _) in Hupdate.
    pose proof (_save_tenant_tenants P t2 st1) as [Hten _].
    injection Hupdate as <- <-. exists t2.
    split; [unfold get_tenant; rewrite Hten; apply lookup_insert_eq|].
    split.
    { intros k Hk. unfold get_tenant. rewrite Hten. simpl.
      apply lookup_insert_ne. congruence. }
    split.
    { intros r. destruct (_save_tenant P t2 st1).1; [intros [= <-]; reflexivity|discriminate]. }
    split; [intros Hs Hd; unfold t2; rewrite get_field_dict_set; apply Hframe; assumption|].
    split; [intros Hs Hd; unfold t2; rewrite get_field_dict_set; apply Hframe; assumption|].
    intros v Hnd Hdict Hv Hhas _. unfold t2. rewrite get_field_dict_set.
    apply get_field_Some.
    apply (update_attrs_set P "id" v kwargs) with (x := tenant); try assumption.
    discriminate.
Qed.

End Identity.

Lemma update_keeps_slug_witness :
  exists tenant',
    TenantManager.get_tenant
      (TenantManager.update_tenant demo_platform "acme"
         [ ("name", PJson (JStr "Acme Corp")); ("id", PJson (JStr "other-id")) ]
         acme_registry).2 "acme" = Some tenant'
    /\ Tenant.get_field tenant' "slug" = Ok (PJson (JStr "acme"))
    /\ Tenant.get_field tenant' "id" = Ok (PJson (JStr "other-id")).
Proof.
  destruct (update_keeps_slug demo_platform "acme"
              [ ("name", PJson (JStr "Acme Corp")); ("id", PJson (JStr "other-id")) ]
              acme_registry
              acme_tenant
              (TenantManager.update_tenant demo_platform "acme"
                 [ ("name", PJson (JStr "Acme Corp")); ("id", PJson (JStr "other-id")) ]
                 acme_registry).1
              (TenantManager.update_tenant demo_platform "acme"
                 [ ("name", PJson (JStr "Acme Corp")); ("id", PJson (JStr "other-id")) ]
                 acme_registry).2)
    as (tenant' & Hread & _ & _ & Hslug & _ & Hid).
  - reflexivity.
  - vm_compute. reflexivity.
  - exists tenant'. split; [exact Hread|]. split.
    + apply Hslug; simpl; intros [H|[H|[]]]; discriminate.
    + apply Hid.
      * apply (bool_decide_unpack _). vm_compute. exact I.
      * simpl. intros [H|[H|[]]]; discriminate.
      * reflexivity.
      * reflexivity.
      * left. vm_compute. reflexivity.
Defined.

(** ** Timestamps *)

Lemma demo_clock_monotone (n : nat) :
  dt_le (utcnow demo_platform n) (utcnow demo_platform (S n)).
Proof.
  unfold dt_le, dt_leb, dt_fields, demo_platform.
  cbn [utcnow year month day hour minute second microsecond lex_leb].
  rewrite !N.ltb_irrefl.
  set (a := N.of_nat n). replace (N.of_nat (S n)) with (a + 1)%N by lia.
  assert (a / 60 <= (a + 1) / 60)%N as Hdiv
    by (apply N.Div0.div_le_mono; lia).
  pose proof (N.Div0.div_mod a 60) as Ha.
  pose proof (N.Div0.div_mod (a + 1) 60) as Hb.
  destruct (N.ltb_spec (a / 60) ((a + 1) / 60)) as [|Hge]; [reflexivity|].
  destruct (N.ltb_spec ((a + 1) / 60) (a / 60)) as [Hlt|_]; [lia|].
  assert ((a + 1) / 60 = a / 60)%N as Heq by lia.
  rewrite Heq in Hb.
  destruct (N.ltb_spec (a mod 60) ((a + 1) mod 60)) as [|Hge']; [reflexivity|lia].
Qed.

(** C8, as stated, fails: [from_dict] returns the record the dictionary
    describes, here with [updated_at] earlier than [created_at]. *)
Lemma from_dict_reversed_timestamps :
  exists tenant,
    (Tenant.from_dict demo_platform reversed_timestamps (Env 0 0)).1 = Ok tenant
    /\ Tenant.get_field tenant "created_at" = Ok (PDatetime (Datetime 2030 1 1 0 0 0 0))
    /\ Tenant.get_field tenant "updated_at" = Ok (PDatetime (Datetime 2020 1 1 0 0 0 0))
    /\ dt_leb (Datetime 2030 1 1 0 0 0 0) (Datetime 2020 1 1 0 0 0 0) = false.
Proof.
  eexists. split; [vm_compute; reflexivity|]. repeat split; reflexivity.
Qed.

(** The keyword [created_at] is an attribute like any other: an update can
    move it past [updated_at]. *)
Example update_moves_created_at :
  (TenantManager.update_tenant demo_platform "acme"
     [ ("created_at", PDatetime (Datetime 2030 1 1 0 0 0 0)) ] acme_registry).1
  = Ok (Some (dict_set "updated_at" (PDatetime (Datetime 2026 2 19 5 0 2 0))
                (dict_set "created_at" (PDatetime (Datetime 2030 1 1 0 0 0 0))
                   acme_tenant))).
Proof. vm_compute. reflexivity. Qed.

(** An update whose loop is cut short does not reach the assignment of
    [updated_at]: the record keeps what the keywords before the failing one
    have set. *)
Example update_cut_short :
  (TenantManager.update_tenant demo_platform "acme"
     [ ("updated_at", PDatetime (Datetime 1999 1 1 0 0 0 0));
       ("__class__", PJson JNull) ] acme_registry).1
  = Raise (TypeError "__class__ must be set to a class")
  /\ (tenant ← TenantManager.get_tenant
        (TenantManager.update_tenant demo_platform "acme"
           [ ("updated_at", PDatetime (Datetime 1999 1 1 0 0 0 0));
             ("__class__", PJson JNull) ] acme_registry).2 "acme";
      Some (Tenant.get_field tenant "updated_at"))
     = Some (Ok (PDatetime (Datetime 1999 1 1 0 0 0 0))).
Proof. split; vm_compute; reflexivity. Qed.

Section Timestamps.
Import TenantManager.
Variable P : platform.

(** C8 (as the code has it), under a clock that never steps back.
    - A record built by the dataclass constructor has
      [updated_at >= created_at].
    - After [update_tenant] whose keywords name neither [created_at] nor
      [__dict__] and whose loop ran to its end, a record whose [created_at]
      is an earlier reading of the clock has [updated_at >= created_at],
      whether or not the save then raised; its [created_at] is unchanged.
    - A record loaded by [from_dict] has the two timestamps the dictionary
      gives: their order is that of the stored strings, right or wrong.
    Nothing in the code compares the two timestamps. *)
Theorem timestamps_ordered
    (Hclock : forall n, dt_le (utcnow P n) (utcnow P (S n))) :
  (forall name slug description w,
     exists c u,
       Tenant.get_field (Tenant.new P name slug description w).1 "created_at"
         = Ok (PDatetime c)
       /\ Tenant.get_field (Tenant.new P name slug description w).1 "updated_at"
         = Ok (PDatetime u)
       /\ dt_le c u)
  /\ (forall slug kwargs st tenant n result st',
     get_tenant st slug = Some tenant ->
     Tenant.get_field tenant "created_at" = Ok (PDatetime (utcnow P n)) ->
     (n <= ticks (world st))%nat ->
     ~ In "created_at" (keys kwargs) -> ~ In "__dict__" (keys kwargs) ->
     update_tenant P slug kwargs st = (result, st') ->
     is_ok result = true
     \/ (~ In "__class__" (keys kwargs) /\ ~ In "__weakref__" (keys kwargs)) ->
     exists tenant' u,
       get_tenant st' slug = Some tenant'
       /\ Tenant.get_field tenant' "created_at" = Ok (PDatetime (utcnow P n))
       /\ Tenant.get_field tenant' "updated_at" = Ok (PDatetime u)
       /\ u = utcnow P (ticks (world st))
       /\ dt_le (utcnow P n) u
       /\ (n <= ticks (world st'))%nat)
  /\ (forall data w x c u dc du,
     NoDup (keys data) -> ~ In "__dict__" (keys data) ->
     dict_get "created_at" data = Some (PJson (JStr c)) ->
     dict_get "updated_at" data = Some (PJson (JStr u)) ->
     fromisoformat P c = Some dc -> fromisoformat P u = Some du ->
     (Tenant.from_dict P data w).1 = Ok x ->
     Tenant.get_field x "created_at" = Ok (PDatetime dc)
     /\ Tenant.get_field x "updated_at" = Ok (PDatetime du)).
Proof.
  split; [|split].
  - intros name slug description w. eexists. eexists.
    split; [reflexivity|]. split; [reflexivity|]. apply Hclock.
  - intros slug kwargs st tenant n result st' Hget Hcreated Hn Hc Hdict Hupdate Hend.
    rewrite (update_tenant_Some P slug kwargs st tenant Hget) in Hupdate.
    destruct (Tenant.update_attrs P tenant kwargs) as [t1 r] eqn:Hattrs.
    pose proof (update_attrs_frame P "created_at" kwargs Hc Hdict _ _ _ Hattrs) as Hframe.
    destruct r as [e|].
    { exfalso. destruct Hend as [Hok|[Hcl Hw]].
      - injection Hupdate as <- _. discriminate.
      - pose proof (update_attrs_completes P kwargs Hdict Hcl Hw tenant) as Hnone.
        rewrite Hattrs in Hnone. discriminate. }
    cbv zeta in Hupdate.
    set (t2 := dict_set "updated_at" _ t1) in Hupdate.
    set (st1 := State _ _ _) in Hupdate.
    pose proof (_save_tenant_tenants P t2 st1) as [Hten Hworld].
    injection Hupdate as _ <-. exists t2, (utcnow P (ticks (world st))).
    split; [unfold get_tenant; rewrite Hten; apply lookup_insert_eq|].
    split.
    { unfold t2. rewrite get_field_dict_set. cbn [String.eqb Ascii.eqb Bool.eqb].
      rewrite <- Hcreated. apply get_field_ext, Hframe. }
    split; [unfold t2; rewrite get_field_dict_set; reflexivity|].
    split; [reflexivity|].
    split; [apply clock_monotone; assumption|].
    rewrite Hworld. simpl. lia.
  - intros data w x c u dc du Hnd Hdict Hc Hu Hdc Hdu Hload.
    unfold Tenant.from_dict in Hload. cbn [fst] in Hload.
    split.
    + apply get_field_Some.
      apply (load_attrs_set P "created_at" (PJson (JStr c)) (PDatetime dc) data)
        with (x := (Tenant.new P "" "" "" w).1); try assumption.
      * discriminate.
      * unfold Tenant.loaded_value. cbn [Tenant.is_timestamp String.eqb Ascii.eqb Bool.eqb orb].
        rewrite Hdc. reflexivity.
      * reflexivity.
    + apply get_field_Some.
      apply (load_attrs_set P "updated_at" (PJson (JStr u)) (PDatetime du) data)
        with (x := (Tenant.new P "" "" "" w).1); try assumption.
      * discriminate.
      * unfold Tenant.loaded_value. cbn [Tenant.is_timestamp String.eqb Ascii.eqb Bool.eqb orb].
        rewrite Hdu. reflexivity.
      * reflexivity.
Qed.

End Timestamps.

Lemma timestamps_ordered_witness :
  dt_le (Datetime 2026 2 19 5 0 0 0) (Datetime 2026 2 19 5 0 1 0)
  /\ (exists tenant',
        TenantManager.get_tenant
          (TenantManager.update_tenant demo_platform "acme"
             [ ("name", PJson (JStr "Acme Corp")) ] acme_registry).2 "acme" = Some tenant'
        /\ Tenant.get_field tenant' "created_at" = Ok (PDatetime (Datetime 2026 2 19 5 0 0 0))
        /\ Tenant.get_field tenant' "updated_at" = Ok (PDatetime (Datetime 2026 2 19 5 0 2 0))
        /\ dt_le (Datetime 2026 2 19 5 0 0 0) (Datetime 2026 2 19 5 0 2 0))
  /\ (forall x,
        (Tenant.from_dict demo_platform
           [ ("slug", PJson (JStr "acme"));
             ("created_at", PJson (JStr "2026-02-19T05:00:00"));
             ("updated_at", PJson (JStr "2026-02-19T05:00:02")) ] (Env 0 0)).1 = Ok x ->
        Tenant.get_field x "created_at" = Ok (PDatetime (Datetime 2026 2 19 5 0 0 0))
        /\ Tenant.get_field x "updated_at" = Ok (PDatetime (Datetime 2026 2 19 5 0 2 0))).
Proof.
  destruct (timestamps_ordered demo_platform demo_clock_monotone)
    as (Hnew & Hupdate & Hload).
  split; [|split].
  - destruct (Hnew "Acme" "acme" "" (Env 0 0)) as (c & u & [= <-] & [= <-] & Hle).
    exact Hle.
  - destruct (Hupdate "acme" [ ("name", PJson (JStr "Acme Corp")) ] acme_registry
                acme_tenant 0%nat
                (TenantManager.update_tenant demo_platform "acme"
                   [ ("name", PJson (JStr "Acme Corp")) ] acme_registry).1
                (TenantManager.update_tenant demo_platform "acme"
                   [ ("name", PJson (JStr "Acme Corp")) ] acme_registry).2)
      as (tenant' & u & Hread & Hcreated & Hupdated & -> & Hle & _).
    + reflexivity.
    + reflexivity.
    + simpl. lia.
    + simpl. intros [H|[]]; discriminate.
    + simpl. intros [H|[]]; discriminate.
    + vm_compute. reflexivity.
    + left. vm_compute. reflexivity.
    + exists tenant'. split; [exact Hread|]. split; [exact Hcreated|].
      split; [exact Hupdated|exact Hle].
  - intros x Hx.
    apply (Hload [ ("slug", PJson (JStr "acme"));
                   ("created_at", PJson (JStr "2026-02-19T05:00:00"));
                   ("updated_at", PJson (JStr "2026-02-19T05:00:02")) ]
                 (Env 0 0) x "2026-02-19T05:00:00" "2026-02-19T05:00:02").
    + apply (bool_decide_unpack _). vm_compute. exact I.
    + simpl. intros [H|[H|[H|[]]]]; discriminate.
    + reflexivity.
    + reflexivity.
    + reflexivity.
    + reflexivity.
    + exact Hx.
Defined.

(** ** Deployments and tenant quotas *)

(** C1, as stated, fails: with tenant [acme] limited to one deployment and
    two containers and [acme_app1] deployed and not removed, deploying
    [acme_app2] returns status [deployed]; no quota error is raised. *)
Lemma second_deploy_succeeds :
  (exists tenant,
     Tenant.update_attrs demo_platform
       (Tenant.new demo_platform "Acme" "acme" "" (Env 0 0)).1 acme_quotas = (tenant, None)
     /\ Tenant.get_field tenant "max_deployments" = Ok (PJson (JInt 1))
     /\ Tenant.get_field tenant "max_containers" = Ok (PJson (JInt 2)))
  /\ DeploymentManager.deploy_compose acme_fs "app1.yml" "acme_app1" None
     = Ok (deployed "app1.yml" "acme_app1")
  /\ DeploymentManager.deploy_compose acme_fs "app2.yml" "acme_app2" None
     = Ok (deployed "app2.yml" "acme_app2").
Proof.
  split; [|split; reflexivity].
  eexists. split; [vm_compute; reflexivity|]. split; reflexivity.
Qed.

(** C1 (as the code has it): [deploy_compose] takes no tenant and checks no
    quota.  Whenever the two compose files validate, deploying the first
    project returns status [deployed], deploying the second while the first
    is in place returns status [deployed] as well, removing the first
    returns [True], and deploying the second again returns [deployed]. *)
Theorem deploy_checks_no_quota
    (fs : gmap string DeploymentManager.file)
    (daemon : gmap string DeploymentManager.container)
    (file1 project1 file2 project2 : string)
    (Hvalid1 : DeploymentManager.validate_compose_file fs file1 = Ok true)
    (Hvalid2 : DeploymentManager.validate_compose_file fs file2 = Ok true) :
  DeploymentManager.deploy_compose fs file1 project1 None = Ok (deployed file1 project1)
  /\ DeploymentManager.deploy_compose fs file2 project2 None = Ok (deployed file2 project2)
  /\ exists daemon',
       DeploymentManager.remove_deployment daemon project1 = Ok (true, daemon')
       /\ DeploymentManager.deploy_compose fs file2 project2 None
          = Ok (deployed file2 project2).
Proof.
  pose proof (deploy_compose_valid fs file1 project1 None Hvalid1) as H1.
  pose proof (deploy_compose_valid fs file2 project2 None Hvalid2) as H2.
  split; [exact H1|]. split; [exact H2|].
  destruct (remove_deployment_removes daemon project1) as [daemon' [Hrm _]].
  exists daemon'. split; [exact Hrm|exact H2].
Qed.

Lemma deploy_checks_no_quota_witness :
  DeploymentManager.deploy_compose acme_fs "app1.yml" "acme_app1" None
    = Ok (deployed "app1.yml" "acme_app1")
  /\ DeploymentManager.deploy_compose acme_fs "app2.yml" "acme_app2" None
    = Ok (deployed "app2.yml" "acme_app2")
  /\ exists daemon',
       DeploymentManager.remove_deployment ∅ "acme_app1" = Ok (true, daemon')
       /\ DeploymentManager.deploy_compose acme_fs "app2.yml" "acme_app2" None
          = Ok (deployed "app2.yml" "acme_app2").
Proof.
  apply (deploy_checks_no_quota acme_fs ∅ "app1.yml" "acme_app1" "app2.yml" "acme_app2");
    reflexivity.
Defined.

Example stop_sample :
  DeploymentManager.stop_deployment sample_daemon "acme_app1"
  = Ok (true,
        <["c1" := DeploymentManager.Container "acme_app1_web_1"
                    [ (DeploymentManager.PROJECT_LABEL, "acme_app1") ]
                    DeploymentManager.Exited]> sample_daemon).
Proof. vm_compute. reflexivity. Qed.

Example remove_sample :
  DeploymentManager.remove_deployment sample_daemon "acme_app1"
  = Ok (true,
        {[ "c3" := DeploymentManager.Container "globex_app_web_1"
                     [ (DeploymentManager.PROJECT_LABEL, "globex_app") ]
                     DeploymentManager.Running ]}).
Proof. vm_compute. reflexivity. Qed.

(** * Further properties *)

(** ** Listing deployments *)

Section Listing.
Import DeploymentManager.
Implicit Types (daemon : gmap string container) (tenant : option string)
  (p : string) (c : container) (ds : list (string * list string)).

Lemma dict_get_add_container p q (n : string) ds :
  dict_get q (add_container p n ds) =
    if String.eqb q p then Some (default [] (dict_get p ds) ++ [n])%list
    else dict_get q ds.
Proof.
  induction ds as [|[p0 ns] ds IH]; cbn [add_container dict_get].
  - destruct (String.eqb q p); reflexivity.
  - destruct (String.eqb_spec p p0) as [->|Hne]; cbn [dict_get].
    + destruct (String.eqb_spec q p0) as [->|Hq]; reflexivity.
    + rewrite IH. destruct (String.eqb_spec q p0) as [->|Hq].
      * destruct (String.eqb_spec p0 p) as [->|_]; [contradiction|reflexivity].
      * reflexivity.
Qed.

Lemma keys_add_container p (n : string) ds :
  keys (add_container p n ds) =
    if dict_has p ds then keys ds else (keys ds ++ [p])%list.
Proof.
  unfold dict_has, keys.
  induction ds as [|[p0 ns] ds IH]; cbn [add_container dict_get map fst].
  - reflexivity.
  - destruct (String.eqb_spec p p0) as [->|Hne]; [reflexivity|].
    cbn [map fst]. rewrite IH.
    destruct (dict_get p ds); reflexivity.
Qed.

Lemma dict_get_keys {A : Type} (k : string) (d : list (string * A)) :
  dict_get k d = None <-> k ∉ keys d.
Proof.
  unfold keys. induction d as [|[k' v] d IH]; cbn [dict_get map fst].
  - split; [intros _; apply not_elem_of_nil|reflexivity].
  - rewrite not_elem_of_cons. destruct (String.eqb_spec k k') as [->|Hne].
    + split; [discriminate|]. intros [H _]. contradiction.
    + rewrite IH. tauto.
Qed.

Lemma NoDup_add_container p (n : string) ds :
  NoDup (keys ds) -> NoDup (keys (add_container p n ds)).
Proof.
  intros Hnd. rewrite keys_add_container. unfold dict_has.
  destruct (dict_get p ds) eqn:Hget; [exact Hnd|].
  apply NoDup_app. split; [exact Hnd|]. split.
  - intros x Hx Hx'. apply list_elem_of_singleton in Hx'. subst x.
    apply dict_get_keys in Hget. contradiction.
  - apply NoDup_singleton.
Qed.

Lemma elem_of_dict {A : Type} (k : string) (v : A) (d : list (string * A)) :
  NoDup (keys d) -> ((k, v) ∈ d <-> dict_get k d = Some v).
Proof.
  unfold keys. induction d as [|[k' v'] d IH]; cbn [dict_get map fst]; intros Hnd.
  - split; [intros H; inversion H|discriminate].
  - apply NoDup_cons in Hnd as [Hk' Hnd]. rewrite elem_of_cons.
    destruct (String.eqb_spec k k') as [->|Hne].
    + split.
      * intros [[= ->]|Hin]; [reflexivity|].
        exfalso. apply Hk'. apply list_elem_of_fmap. exists (k', v). split; [reflexivity|exact Hin].
      * intros [= ->]. left. reflexivity.
    + rewrite <- (IH Hnd). split.
      * intros [[= -> _]|Hin]; [contradiction|exact Hin].
      * intros Hin. right. exact Hin.
Qed.

(** What the loop has gathered for project [p]: the names of its containers,
    when the project passes the test of the loop. *)
Lemma dict_get_foldl_group_step tenant p (cs : list container) :
  forall ds,
  dict_get p (foldl (group_step tenant) ds cs) =
    match (if negb (String.eqb p "") && tenant_matches tenant p
           then names_of p cs else []) with
    | [] => dict_get p ds
    | extra => Some (default [] (dict_get p ds) ++ extra)%list
    end.
Proof.
  induction cs as [|c cs IH]; intros ds.
  - cbn [foldl]. unfold names_of. simpl. destruct (_ && _); reflexivity.
  - cbn [foldl]. rewrite IH. unfold names_of. rewrite filter_cons.
    unfold group_step.
    destruct (decide (dict_get PROJECT_LABEL (labels c) = Some p)) as [Hp|Hnp].
    + rewrite Hp.
      destruct (negb (String.eqb p "") && tenant_matches tenant p) eqn:Hcond;
        [|reflexivity].
      cbn [map]. rewrite dict_get_add_container, String.eqb_refl.
      destruct (map cname _) as [|n ns]; cbn [default].
      * reflexivity.
      * unfold id. rewrite <- app_assoc. reflexivity.
    + assert (dict_get p
                match dict_get PROJECT_LABEL (labels c) with
                | Some project =>
                    if negb (String.eqb project "") && tenant_matches tenant project
                    then add_container project (cname c) ds else ds
                | None => ds
                end = dict_get p ds) as ->; [|reflexivity].
      destruct (dict_get PROJECT_LABEL (labels c)) as [q|]; [|reflexivity].
      destruct (negb (String.eqb q "") && tenant_matches tenant q); [|reflexivity].
      rewrite dict_get_add_container.
      destruct (String.eqb_spec p q) as [->|_]; [contradiction|reflexivity].
Qed.

Lemma NoDup_foldl_group_step tenant (cs : list container) :
  forall ds, NoDup (keys ds) -> NoDup (keys (foldl (group_step tenant) ds cs)).
Proof.
  induction cs as [|c cs IH]; intros ds Hnd; [exact Hnd|].
  cbn [foldl]. apply IH. unfold group_step.
  destruct (dict_get PROJECT_LABEL (labels c)) as [q|]; [|exact Hnd].
  destruct (_ && _); [apply NoDup_add_container|]; exact Hnd.
Qed.

Lemma dict_get_group_deployments tenant p (cs : list container) :
  dict_get p (group_deployments tenant cs) =
    if negb (String.eqb p "") && tenant_matches tenant p
    then match names_of p cs with [] => None | names => Some names end
    else None.
Proof.
  unfold group_deployments. rewrite dict_get_foldl_group_step.
  destruct (_ && _); [|reflexivity]. destruct (names_of p cs); reflexivity.
Qed.

Lemma elem_of_compose_containers daemon c :
  c ∈ compose_containers daemon <->
  exists id, daemon !! id = Some c /\ is_running c = true /\ has_project_label c = true.
Proof.
  unfold compose_containers. rewrite list_elem_of_fmap. split.
  - intros [[id c'] [-> H]]. apply elem_of_map_to_list in H.
    apply map_lookup_filter_Some in H as [H1 H2]. simpl in *.
    apply Is_true_true, andb_true_iff in H2. exists id. tauto.
  - intros (id & H1 & H2 & H3). exists (id, c). split; [reflexivity|].
    apply elem_of_map_to_list, map_lookup_filter_Some. split; [exact H1|].
    simpl. apply Is_true_true. rewrite H2, H3. reflexivity.
Qed.

Lemma elem_of_names_of p (cs : list container) (n : string) :
  n ∈ names_of p cs <->
  exists c, c ∈ cs /\ dict_get PROJECT_LABEL (labels c) = Some p /\ cname c = n.
Proof.
  unfold names_of. rewrite list_elem_of_fmap. split.
  - intros [c [-> H]]. apply list_elem_of_filter in H as [H1 H2]. eauto.
  - intros (c & H1 & H2 & H3). exists c. split; [symmetry; exact H3|].
    apply list_elem_of_filter. split; assumption.
Qed.

Lemma NoDup_group_deployments tenant (cs : list container) :
  NoDup (keys (group_deployments tenant cs)).
Proof. apply NoDup_foldl_group_step. apply NoDup_nil_2. Qed.

Lemma deployment_info_inj (e1 e2 : string * list string) :
  deployment_info e1 = deployment_info e2 -> e1 = e2.
Proof.
  destruct e1 as [p1 n1], e2 as [p2 n2]. unfold deployment_info. simpl.
  intros [= -> H]. f_equal.
  revert n2 H. induction n1 as [|x n1 IH]; intros [|y n2] H; simpl in H;
    try discriminate; [reflexivity|].
  injection H as -> H. f_equal. apply IH, H.
Qed.

Lemma elem_of_list_deployments daemon tenant (e : string * list string) :
  deployment_info e ∈ list_deployments daemon tenant <->
  dict_get e.1 (group_deployments tenant (compose_containers daemon)) = Some e.2.
Proof.
  unfold list_deployments.
  rewrite <- (elem_of_dict e.1 e.2) by apply NoDup_group_deployments.
  rewrite <- surjective_pairing. rewrite list_elem_of_fmap. split.
  - intros [e' [Heq Hin]]. apply deployment_info_inj in Heq. subst e'. exact Hin.
  - intros Hin. exists e. split; [reflexivity|exact Hin].
Qed.

Lemma project_of_deployment_infos (l : list (string * list string)) :
  map project_of (map deployment_info l) = (fun p => Some (JStr p)) <$> keys l.
Proof.
  induction l as [|e l IH]; [reflexivity|].
  simpl. f_equal. exact IH.
Qed.

(** X1: [list_deployments] has one entry per project: the project names of
    the list it returns are pairwise distinct. *)
Theorem list_deployments_distinct_projects daemon tenant :
  NoDup (map project_of (list_deployments daemon tenant)).
Proof.
  unfold list_deployments. rewrite project_of_deployment_infos.
  apply NoDup_fmap_2; [|apply NoDup_group_deployments].
  intros x y [= ->]. reflexivity.
Qed.

Lemma entry_listed daemon tenant p (names : list string) :
  deployment_info (p, names) ∈ list_deployments daemon tenant <->
  p <> "" /\ tenant_matches tenant p = true /\ names <> []
  /\ names = names_of p (compose_containers daemon).
Proof.
  rewrite elem_of_list_deployments. simpl. rewrite dict_get_group_deployments.
  destruct (String.eqb_spec p "") as [->|Hp]; simpl.
  - split; [discriminate|]. intros [H _]. contradiction.
  - destruct (tenant_matches tenant p).
    + destruct (names_of p (compose_containers daemon)) as [|n ns].
      * split; [discriminate|]. intros (_ & _ & H1 & H2). contradiction.
      * split.
        -- intros [= <-]. repeat split; [exact Hp|discriminate].
        -- intros (_ & _ & _ & ->). reflexivity.
    + split; [discriminate|]. intros (_ & H & _). discriminate.
Qed.

Lemma listed_iff_running daemon tenant p :
  (exists names, deployment_info (p, names) ∈ list_deployments daemon tenant) <->
  p <> "" /\ tenant_matches tenant p = true
  /\ exists id c, daemon !! id = Some c /\ is_running c = true /\ has_project p c = true.
Proof.
  split.
  - intros [names H]. apply entry_listed in H as (Hp & Ht & Hne & ->).
    split; [exact Hp|]. split; [exact Ht|].
    destruct (names_of p (compose_containers daemon)) as [|n ns] eqn:Hn;
      [contradiction|].
    assert (n ∈ names_of p (compose_containers daemon)) as Hin
      by (rewrite Hn; left).
    apply elem_of_names_of in Hin as (c & Hc & Hl & _).
    apply elem_of_compose_containers in Hc as (id & Hid & Hrun & _).
    exists id, c. split; [exact Hid|]. split; [exact Hrun|].
    unfold has_project. rewrite Hl. apply String.eqb_refl.
  - intros (Hp & Ht & id & c & Hid & Hrun & Hproj).
    exists (names_of p (compose_containers daemon)).
    apply entry_listed. repeat split; try assumption.
    unfold has_project in Hproj.
    destruct (dict_get PROJECT_LABEL (labels c)) as [v|] eqn:Hl; [|discriminate].
    apply String.eqb_eq in Hproj. subst v.
    assert (cname c ∈ names_of p (compose_containers daemon)) as Hin.
    { apply elem_of_names_of. exists c. split; [|split; [exact Hl|reflexivity]].
      apply elem_of_compose_containers. exists id.
      split; [exact Hid|]. split; [exact Hrun|].
      unfold has_project_label, dict_has. rewrite Hl. reflexivity. }
    intros Hnil. rewrite Hnil in Hin. inversion Hin.
Qed.

(** X2: the entry of project [p] lists exactly the names of the running,
    labelled containers whose project label is [p], in the order the daemon
    lists them; an entry exists only for a non-empty project name that passes
    the tenant test, and its container list is never empty. *)
Theorem list_deployments_entry daemon tenant p (names : list string) :
  deployment_info (p, names) ∈ list_deployments daemon tenant <->
  p <> "" /\ tenant_matches tenant p = true /\ names <> []
  /\ names = names_of p (compose_containers daemon).
Proof. apply entry_listed. Qed.

(** X3: a project is listed exactly when its name is not empty, it passes
    the tenant test and the daemon holds a running container labelled with
    it. *)
Theorem project_listed_iff_running daemon tenant p :
  (exists names, deployment_info (p, names) ∈ list_deployments daemon tenant) <->
  p <> "" /\ tenant_matches tenant p = true
  /\ exists id c, daemon !! id = Some c /\ is_running c = true /\ has_project p c = true.
Proof. apply listed_iff_running. Qed.

Lemma filter_add_container (f : string -> bool) p (n : string) ds :
  filter (fun e : string * list string => f e.1) (add_container p n ds) =
    if f p then add_container p n (filter (fun e : string * list string => f e.1) ds)
    else filter (fun e : string * list string => f e.1) ds.
Proof.
  induction ds as [|[p0 ns] ds IH]; cbn [add_container].
  - rewrite filter_cons, filter_nil. simpl.
    destruct (f p); [rewrite decide_True by exact I|rewrite decide_False by (intros [])];
      reflexivity.
  - destruct (String.eqb_spec p p0) as [->|Hne].
    + rewrite !filter_cons. simpl. destruct (f p0) eqn:Hf.
      * rewrite !decide_True by exact I. cbn [add_container].
        rewrite String.eqb_refl. reflexivity.
      * rewrite !decide_False by (intros []). reflexivity.
    + rewrite !filter_cons, IH. simpl. destruct (f p0).
      * rewrite !decide_True by exact I. destruct (f p); [|reflexivity].
        cbn [add_container]. apply String.eqb_neq in Hne. rewrite Hne. reflexivity.
      * rewrite !decide_False by (intros []). reflexivity.
Qed.

Lemma group_step_filter tenant ds c :
  group_step tenant (filter (fun e : string * list string => tenant_matches tenant e.1) ds) c
  = filter (fun e : string * list string => tenant_matches tenant e.1) (group_step None ds c).
Proof.
  unfold group_step. destruct (dict_get PROJECT_LABEL (labels c)) as [q|]; [|reflexivity].
  cbn [tenant_matches]. rewrite andb_true_r.
  destruct (negb (String.eqb q "")); simpl; [|reflexivity].
  rewrite filter_add_container. reflexivity.
Qed.

Lemma foldl_group_step_filter tenant (cs : list container) :
  forall ds,
  foldl (group_step tenant)
    (filter (fun e : string * list string => tenant_matches tenant e.1) ds) cs
  = filter (fun e : string * list string => tenant_matches tenant e.1)
      (foldl (group_step None) ds cs).
Proof.
  induction cs as [|c cs IH]; intros ds; [reflexivity|].
  cbn [foldl]. rewrite group_step_filter. apply IH.
Qed.

(** X4: listing for a tenant is listing everything and keeping the projects
    that pass the tenant test. *)
Theorem list_deployments_tenant_filter daemon tenant :
  list_deployments daemon tenant =
    map deployment_info
      (filter (fun e : string * list string => tenant_matches tenant e.1)
         (group_deployments None (compose_containers daemon))).
Proof.
  unfold list_deployments, group_deployments. f_equal.
  rewrite <- foldl_group_step_filter. reflexivity.
Qed.

Lemma prefix_trans (a b c : string) :
  String.prefix a b = true -> String.prefix b c = true -> String.prefix a c = true.
Proof.
  revert b c. induction a as [|x a IH]; intros b c Hab Hbc; [destruct c; reflexivity|].
  destruct b as [|y b]; [discriminate|]. destruct c as [|z c]; [discriminate|].
  simpl in *. destruct (ascii_dec x y) as [->|]; [|discriminate].
  destruct (ascii_dec y z) as [->|]; [|discriminate].
  destruct (ascii_dec z z); [|contradiction]. eapply IH; eassumption.
Qed.

Lemma prefix_append (a b : string) : String.prefix a (a +:+ b) = true.
Proof.
  induction a as [|x a IH]; [destruct b; reflexivity|]. simpl.
  destruct (ascii_dec x x); [exact IH|contradiction].
Qed.

(** X5: the tenant test is a test on a prefix, so a tenant whose slug
    continues another tenant's slug after an underscore shares its
    deployments with it: when [t' ] starts with [t_], every deployment listed
    for [t'] is listed for [t] too. *)
Theorem list_deployments_prefix_overlap daemon (t t' : string) (info : json)
    (Hprefix : String.prefix (t +:+ "_") t' = true)
    (Hlisted : info ∈ list_deployments daemon (Some t')) :
  info ∈ list_deployments daemon (Some t).
Proof.
  pose proof Hlisted as Hin. unfold list_deployments in Hin.
  apply list_elem_of_fmap in Hin as [[p names] [-> _]].
  apply entry_listed in Hlisted as (Hp & Ht & Hne & Hnames).
  apply entry_listed. repeat split; try assumption.
  cbn [tenant_matches] in *. apply orb_true_iff in Ht as [Ht|Ht].
  - apply String.eqb_eq in Ht. subst t'.
    destruct (t +:+ "_") eqn:E; [destruct t; discriminate|discriminate].
  - apply orb_true_iff. right.
    apply (prefix_trans _ t'); [exact Hprefix|].
    apply (prefix_trans _ (t' +:+ "_")); [apply prefix_append|exact Ht].
Qed.

End Listing.

Lemma list_deployments_prefix_overlap_witness :
  DeploymentManager.deployment_info ("acme_corp_web", ["acme_corp_web_1"])
  ∈ DeploymentManager.list_deployments overlap_daemon (Some "acme").
Proof.
  apply (list_deployments_prefix_overlap overlap_daemon "acme" "acme_corp").
  - reflexivity.
  - assert (DeploymentManager.list_deployments overlap_daemon (Some "acme_corp")
            = [ DeploymentManager.deployment_info ("acme_corp_web", ["acme_corp_web_1"]) ])
      as -> by (vm_compute; reflexivity).
    left.
Defined.

(** ** What stopping and removing change *)

Section TeardownEffect.
Import DeploymentManager.
Implicit Types (daemon d : gmap string container) (p : string) (c : container).

Lemma stopped_lookup daemon p (id : string) :
  stopped p daemon !! id =
    (fun c => if is_running c && has_project p c
              then Container (cname c) (labels c) Exited else c) <$> daemon !! id.
Proof.
  unfold stopped. rewrite lookup_fmap. destruct (daemon !! id) as [c|]; [|reflexivity].
  simpl. f_equal. unfold listed. simpl.
  destruct (is_running c) eqn:Hrun; [|reflexivity].
  destruct (has_project p c); [|reflexivity]. simpl.
  unfold halt. unfold is_running in Hrun. destruct (status c); try discriminate.
  reflexivity.
Qed.

Lemma remove_deployment_lookup daemon p :
  exists d', remove_deployment daemon p = Ok (true, d')
    /\ forall id, d' !! id =
         daemon !! id ≫= (fun c => if has_project p c then None else Some c).
Proof.
  unfold remove_deployment. rewrite stop_deployment_stopped, bind_Ok.
  destruct (for_each_remove (containers_list true p (stopped p daemon)) (stopped p daemon))
    as [d' [Hfor Hd']].
  { apply NoDup_containers_list. }
  { intros id Hid. apply elem_of_containers_list in Hid as [c [Hc Hl]].
    exists c. split; [exact Hc|].
    pose proof (stopped_none_running daemon p id c Hc) as Hs.
    unfold listed in *. simpl in Hl. rewrite Hl in Hs.
    rewrite andb_true_r in Hs. apply orb_false_iff in Hs as [_ Hs]. exact Hs. }
  exists d'. split; [rewrite Hfor; reflexivity|].
  intros id. rewrite Hd'.
  destruct (decide (id ∈ containers_list true p (stopped p daemon))) as [Hin|Hnin].
  - apply elem_of_containers_list in Hin as [c' [Hc' Hl]].
    rewrite stopped_lookup in Hc'. destruct (daemon !! id) as [c|]; [|discriminate].
    simpl in *. injection Hc' as <-.
    unfold listed in Hl. simpl in Hl.
    destruct (is_running c && has_project p c) eqn:Hrp.
    + apply andb_true_iff in Hrp as [_ ->]. reflexivity.
    + rewrite Hl. reflexivity.
  - rewrite stopped_lookup. destruct (daemon !! id) as [c|] eqn:Hc; [|reflexivity].
    simpl. destruct (has_project p c) eqn:Hp.
    + exfalso. apply Hnin. apply elem_of_containers_list.
      eexists. split; [rewrite stopped_lookup, Hc; reflexivity|].
      unfold listed. simpl. rewrite Hp.
      destruct (is_running c); simpl; unfold has_project in *; simpl; exact Hp.
    + rewrite andb_false_r. reflexivity.
Qed.

(** X6: [stop_deployment] returns [True] and changes the status of the
    running containers of the project to exited; every other container, and
    the name and labels of every container, are as before, and no container
    is added or removed. *)
Theorem stop_deployment_effect daemon p :
  exists d', stop_deployment daemon p = Ok (true, d')
    /\ forall id, d' !! id =
         (fun c => if is_running c && has_project p c
                   then Container (cname c) (labels c) Exited else c) <$> daemon !! id.
Proof.
  exists (stopped p daemon). split; [apply stop_deployment_stopped|].
  apply stopped_lookup.
Qed.

(** X7: [remove_deployment] returns [True] and deletes exactly the
    containers labelled with the project, whatever their status; the
    containers of other projects are left as they are, running ones
    included. *)
Theorem remove_deployment_effect daemon p :
  exists d', remove_deployment daemon p = Ok (true, d')
    /\ forall id, d' !! id =
         daemon !! id ≫= (fun c => if has_project p c then None else Some c).
Proof. apply remove_deployment_lookup. Qed.

(** X8: after [stop_deployment] or [remove_deployment] of a project,
    [list_deployments] has no entry for it, for any tenant filter, and a
    different project is listed after exactly when it was listed before. *)
Theorem teardown_unlists_project daemon p :
  exists d1 d2,
    stop_deployment daemon p = Ok (true, d1)
    /\ remove_deployment daemon p = Ok (true, d2)
    /\ (forall tenant names,
          (deployment_info (p, names) ∉ list_deployments d1 tenant)
          /\ (deployment_info (p, names) ∉ list_deployments d2 tenant))
    /\ (forall tenant q, q <> p ->
          ((exists names, deployment_info (q, names) ∈ list_deployments d1 tenant)
           <-> (exists names, deployment_info (q, names) ∈ list_deployments daemon tenant))
          /\ ((exists names, deployment_info (q, names) ∈ list_deployments d2 tenant)
           <-> (exists names, deployment_info (q, names) ∈ list_deployments daemon tenant))).
Proof.
  destruct (remove_deployment_lookup daemon p) as [d2 [Hrm Hd2]].
  exists (stopped p daemon), d2.
  split; [apply stop_deployment_stopped|]. split; [exact Hrm|].
  assert (forall q c, has_project q c = true -> q <> p -> has_project p c = false) as Hother.
  { intros q c Hq Hne. unfold has_project in *.
    destruct (dict_get PROJECT_LABEL (labels c)) as [v|]; [|reflexivity].
    apply String.eqb_eq in Hq. subst v. apply String.eqb_neq. exact Hne. }
  split.
  - intros tenant names. split; intros Hin.
    + assert (exists names, deployment_info (p, names)
                ∈ list_deployments (stopped p daemon) tenant) as H by eauto.
      apply listed_iff_running in H as (_ & _ & id & c & Hc & Hrun & Hp).
      pose proof (stopped_none_running daemon p id c Hc) as Hs.
      unfold listed in Hs. rewrite Hrun, Hp in Hs. discriminate.
    + assert (exists names, deployment_info (p, names) ∈ list_deployments d2 tenant)
        as H by eauto.
      apply listed_iff_running in H as (_ & _ & id & c & Hc & _ & Hp).
      rewrite Hd2 in Hc. destruct (daemon !! id) as [c0|]; [|discriminate].
      simpl in Hc. destruct (has_project p c0) eqn:Hp0; [discriminate|].
      injection Hc as ->. rewrite Hp in Hp0. discriminate.
  - intros tenant q Hne. rewrite !listed_iff_running. split.
    + split; intros (Hq & Ht & id & c & Hc & Hrun & Hp); (split; [exact Hq|]);
        (split; [exact Ht|]); exists id.
      * rewrite stopped_lookup in Hc. destruct (daemon !! id) as [c0|]; [|discriminate].
        simpl in Hc. destruct (is_running c0 && has_project p c0) eqn:Hrp.
        -- injection Hc as <-. discriminate.
        -- injection Hc as ->. eauto.
      * exists c. split; [|split; assumption].
        rewrite stopped_lookup, Hc. simpl.
        rewrite (Hother q c Hp Hne), andb_false_r. reflexivity.
    + split; intros (Hq & Ht & id & c & Hc & Hrun & Hp); (split; [exact Hq|]);
        (split; [exact Ht|]); exists id.
      * rewrite Hd2 in Hc. destruct (daemon !! id) as [c0|]; [|discriminate].
        simpl in Hc. destruct (has_project p c0); [discriminate|].
        injection Hc as ->. eauto.
      * exists c. split; [|split; assumption].
        rewrite Hd2, Hc. simpl. rewrite (Hother q c Hp Hne). reflexivity.
Qed.

End TeardownEffect.

(** ** What the validator accepts *)

Section Acceptance.
Import DeploymentManager.

(** X9: [validate_compose_file] never returns [False], and it returns
    [True] exactly for a file that exists, parses to a mapping whose version
    (["3"] when absent) is a string starting with ["3"], and has the key
    [services]. *)
Theorem validate_accepts_iff (fs : gmap string file) (compose_file : string) :
  (forall b, validate_compose_file fs compose_file = Ok b -> b = true)
  /\ (validate_compose_file fs compose_file = Ok true <->
      exists d v,
        fs !! compose_file = Some (Document (JDict d))
        /\ default (JStr "3") (dict_get "version" d) = JStr v
        /\ String.prefix "3" v = true
        /\ dict_has "services" d = true).
Proof.
  assert (forall b, validate_compose_file fs compose_file = Ok b ->
            b = true /\ exists d v,
              fs !! compose_file = Some (Document (JDict d))
              /\ default (JStr "3") (dict_get "version" d) = JStr v
              /\ String.prefix "3" v = true
              /\ dict_has "services" d = true) as Hok.
  { intros b. unfold validate_compose_file.
    destruct (fs !! compose_file) as [[|y]|]; try discriminate.
    destruct y as [| | | | |l|d]; try discriminate.
    destruct (default (JStr "3") (dict_get "version" d)) as [| | | |v| |] eqn:Hv;
      try (unfold validate_compose_data, get_version; simpl; rewrite Hv; discriminate).
    rewrite (validate_compose_data_dict d v Hv).
    destruct (String.prefix "3" v) eqn:Hp; [|discriminate].
    destruct (dict_has "services" d) eqn:Hs; [|discriminate].
    simpl. intros [= <-]. split; [reflexivity|]. exists d, v. auto. }
  split.
  - intros b Hb. apply (Hok b Hb).
  - split.
    + intros H. apply (Hok true H).
    + intros (d & v & Hfile & Hv & Hp & Hs).
      unfold validate_compose_file. rewrite Hfile.
      rewrite (validate_compose_data_dict d v Hv), Hp, Hs. reflexivity.
Qed.

End Acceptance.

(** ** More on batches *)

Section BatchOutcomes.
Import Orchestrator.

(** X10: in the list [deploy_multiple] returns, position [i] holds an
    exception exactly when spec [i] is not a mapping, and the exception is
    the [AttributeError] of its missing [get]; every mapping, with or without
    a project name, gives a success payload. *)
Theorem deploy_multiple_failures (deployments : list json) (i : nat) (e : exn) :
  deploy_multiple deployments !! i = Some (Raise e) <->
  exists d, deployments !! i = Some d
            /\ (forall m, d <> JDict m) /\ e = AttributeError "get".
Proof.
  unfold deploy_multiple, gather.
  change (map _deploy_single deployments) with (_deploy_single <$> deployments).
  rewrite list_lookup_fmap. destruct (deployments !! i) as [d|]; simpl.
  - split.
    + intros [= H]. exists d. split; [reflexivity|].
      destruct d; simpl in H; try discriminate; injection H as <-;
        (split; [intros ?; discriminate|reflexivity]).
    + intros (d' & [= <-] & Hnd & ->). f_equal.
      destruct d; try reflexivity. exfalso. eapply Hnd. reflexivity.
  - split; [discriminate|]. intros (d & Hd & _). discriminate.
Qed.

(** X11: the dictionary of [health_check_all] depends only on which names
    are submitted, not on their order or on how often each occurs. *)
Theorem health_check_all_set (names names' : list string)
    (Hsame : forall n, n ∈ names <-> n ∈ names') :
  health_check_all names = health_check_all names'.
Proof.
  apply map_eq. intros n. rewrite !health_check_all_lookup.
  destruct (decide (n ∈ names)) as [H|H], (decide (n ∈ names')) as [H'|H'];
    try reflexivity.
  - exfalso. apply H', Hsame, H.
  - exfalso. apply H, Hsame, H'.
Qed.

End BatchOutcomes.

Lemma health_check_all_set_witness :
  Orchestrator.health_check_all ["acme_app1"; "acme_app2"; "acme_app1"]
  = Orchestrator.health_check_all ["acme_app2"; "acme_app1"].
Proof.
  apply health_check_all_set. intros n. rewrite !elem_of_cons, !elem_of_nil. tauto.
Defined.

(** ** The registry and its files *)

Lemma dump_items_pyvals (d : list (string * pyval)) (data : list (string * json)) :
  dump_items d = Ok data -> d = pyvals data.
Proof.
  revert data. induction d as [|[key value] d IH]; intros data; cbn [dump_items].
  - intros [= <-]. reflexivity.
  - destruct value as [j|dt]; [|discriminate]. cbn [dump_value mbind result_bind].
    destruct (dump_items d) as [rest|e]; [|discriminate].
    cbn [mbind result_bind]. intros [= <-]. cbn. f_equal. apply IH. reflexivity.
Qed.

Section Store.
Import TenantManager.
Variable P : platform.
Implicit Types (st : state) (slug : string).

(** What a dump that succeeds has written is the dictionary of [to_dict]. *)
Lemma dump_tenant_to_dict (tenant : Tenant.t) (data : list (string * json)) :
  dump_tenant tenant = Ok data -> Tenant.to_dict tenant = Ok (pyvals data).
Proof.
  unfold dump_tenant, Tenant.call_to_dict.
  destruct (dict_has "to_dict" tenant); [discriminate|].
  destruct (Tenant.to_dict tenant) as [d|e]; [|discriminate].
  cbn [mbind result_bind]. intros H. f_equal. apply dump_items_pyvals, H.
Qed.

(** The file of a tenant whose slug is a string is [<slug>.json]. *)
Lemma open_tenant_file_str (tenant : Tenant.t) (s : string) :
  Tenant.get_field tenant "slug" = Ok (PJson (JStr s)) ->
  open_tenant_file P tenant = open_w P (s +:+ ".json").
Proof. unfold open_tenant_file. intros ->. reflexivity. Qed.

(** X14: [update_tenant] of a slug that is not registered returns [None]
    and changes nothing, the clock is not even read; a successful update of
    a registered tenant reads the clock once, stores the returned record
    under the slug, writes its [to_dict()] to the file named after the
    record's slug, and leaves every other tenant untouched. *)
Theorem update_tenant_effect slug kwargs st :
  (get_tenant st slug = None -> update_tenant P slug kwargs st = (Ok None, st))
  /\ (forall tenant' st',
       update_tenant P slug kwargs st = (Ok (Some tenant'), st') ->
       is_Some (get_tenant st slug)
       /\ get_tenant st' slug = Some tenant'
       /\ (exists f data,
             open_tenant_file P tenant' = Ok f
             /\ (forall s, Tenant.get_field tenant' "slug" = Ok (PJson (JStr s)) ->
                           open_w P (s +:+ ".json") = Ok f)
             /\ Tenant.to_dict tenant' = Ok (pyvals data)
             /\ files st' !! f = Some (JSON (JDict data)))
       /\ world st' = Env (draws (world st)) (S (ticks (world st)))
       /\ (forall k, k <> slug -> get_tenant st' k = get_tenant st k)).
Proof.
  split.
  - unfold update_tenant, get_tenant. intros ->. reflexivity.
  - intros tenant' st' H.
    destruct (get_tenant st slug) as [x|] eqn:Hget;
      [|unfold update_tenant, get_tenant in *; rewrite Hget in H; discriminate].
    rewrite (update_tenant_Some P slug kwargs st x Hget) in H.
    destruct (Tenant.update_attrs P x kwargs) as [t1 [e|]]; [discriminate|].
    cbv zeta in H.
    set (t2 := dict_set "updated_at" _ t1) in H.
    set (st1 := State _ _ _) in H.
    pose proof (_save_tenant_cases P t2 st1) as Hsave.
    destruct (open_tenant_file P t2) as [f|e] eqn:Hopen;
      [|rewrite Hsave in H; discriminate].
    destruct (dump_tenant t2) as [data|e] eqn:Hdump;
      [|rewrite Hsave in H; discriminate].
    rewrite Hsave in H. injection H as <- <-.
    split; [eauto|]. split; [apply lookup_insert_eq|].
    split.
    { exists f, data. split; [exact Hopen|]. split.
      - intros s Hs. rewrite <- (open_tenant_file_str t2 s Hs). exact Hopen.
      - split; [apply dump_tenant_to_dict, Hdump|apply lookup_insert_eq]. }
    split; [reflexivity|].
    intros k Hk. apply lookup_insert_ne. intros ->. apply Hk. reflexivity.
Qed.

(** X26: the statements of [create_tenant] after the import.  With a
    registered slug they raise the duplicate [ValueError] and change
    nothing.  When they return a tenant, the slug was free, the tenant is
    held under it, the file that [open] gave for the tenant's slug holds its
    [to_dict()], one uuid was drawn and the clock read twice, and every
    other tenant is untouched.  The tenant has the slug passed and the two
    clock readings as [created_at] and [updated_at], unless a keyword names
    these attributes or [__dict__]. *)
Theorem create_tenant_body_persists name slug description kwargs st :
  (is_Some (get_tenant st slug) ->
   create_tenant_body P name slug description kwargs st = (Raise (duplicate_tenant slug), st))
  /\ (forall tenant st',
       create_tenant_body P name slug description kwargs st = (Ok tenant, st') ->
       get_tenant st slug = None
       /\ get_tenant st' slug = Some tenant
       /\ (exists f data,
             open_tenant_file P tenant = Ok f
             /\ (forall s, Tenant.get_field tenant "slug" = Ok (PJson (JStr s)) ->
                           open_w P (s +:+ ".json") = Ok f)
             /\ Tenant.to_dict tenant = Ok (pyvals data)
             /\ files st' = <[f := JSON (JDict data)]> (files st))
       /\ (~ In "slug" (keys kwargs) -> ~ In "__dict__" (keys kwargs) ->
           Tenant.get_field tenant "slug" = Ok (PJson (JStr slug)))
       /\ (~ In "created_at" (keys kwargs) -> ~ In "__dict__" (keys kwargs) ->
           Tenant.get_field tenant "created_at"
           = Ok (PDatetime (utcnow P (ticks (world st)))))
       /\ (~ In "updated_at" (keys kwargs) -> ~ In "__dict__" (keys kwargs) ->
           Tenant.get_field tenant "updated_at"
           = Ok (PDatetime (utcnow P (S (ticks (world st))))))
       /\ world st' = Env (S (draws (world st))) (S (S (ticks (world st))))
       /\ (forall k, k <> slug -> get_tenant st' k = get_tenant st k)).
Proof.
  unfold create_tenant_body, get_tenant. split.
  - intros [x ->]. reflexivity.
  - intros tenant st' H.
    destruct (_tenants st !! slug) as [x|] eqn:Hfree; [discriminate|].
    destruct (Tenant.new P name slug description (world st)) as [t0 w] eqn:Hnew.
    destruct (Tenant.update_attrs P t0 kwargs) as [t1 [e|]] eqn:Hattrs; [discriminate|].
    set (st2 := State _ _ _) in H.
    pose proof (_save_tenant_cases P t1 st2) as Hsave.
    destruct (open_tenant_file P t1) as [f|e] eqn:Hopen;
      [|rewrite Hsave in H; discriminate].
    destruct (dump_tenant t1) as [data|e] eqn:Hdump;
      [|rewrite Hsave in H; discriminate].
    rewrite Hsave in H. injection H as <- <-.
    unfold Tenant.new in Hnew. injection Hnew as <- <-.
    split; [reflexivity|]. split; [apply lookup_insert_eq|].
    split.
    { exists f, data. split; [exact Hopen|]. split.
      - intros s Hs. rewrite <- (open_tenant_file_str t1 s Hs). exact Hopen.
      - split; [apply dump_tenant_to_dict, Hdump|reflexivity]. }
    split.
    { intros Hs Hd. apply get_field_Some.
      rewrite (update_attrs_frame P "slug" kwargs Hs Hd _ _ _ Hattrs). reflexivity. }
    split.
    { intros Hs Hd. apply get_field_Some.
      rewrite (update_attrs_frame P "created_at" kwargs Hs Hd _ _ _ Hattrs). reflexivity. }
    split.
    { intros Hs Hd. apply get_field_Some.
      rewrite (update_attrs_frame P "updated_at" kwargs Hs Hd _ _ _ Hattrs). reflexivity. }
    split; [reflexivity|].
    intros k Hk. apply lookup_insert_ne. congruence.
Qed.

(** X27: a save that raises undoes nothing.  When the statements of
    [create_tenant] after the import have built the tenant (the slug was
    free and the keyword loop ran to its end) and then raise, the exception
    is that of [_save_tenant] and the tenant stays registered under the
    slug: with no file written when [open] raised, with a file that holds no
    JSON document when [to_dict()] or [json.dump] raised. *)
Theorem failed_save_keeps_tenant name slug description kwargs st tenant e st'
    (Hfree : get_tenant st slug = None)
    (Hloop : Tenant.update_attrs P (Tenant.new P name slug description (world st)).1 kwargs
             = (tenant, None))
    (Hcreate : create_tenant_body P name slug description kwargs st = (Raise e, st')) :
  get_tenant st' slug = Some tenant
  /\ (forall k, k <> slug -> get_tenant st' k = get_tenant st k)
  /\ match open_tenant_file P tenant with
     | Ok f => dump_tenant tenant = Raise e /\ files st' = <[f := NotJSON]> (files st)
     | Raise e' => e' = e /\ files st' = files st
     end.
Proof.
  unfold get_tenant in Hfree. unfold create_tenant_body in Hcreate.
  rewrite Hfree in Hcreate.
  destruct (Tenant.new P name slug description (world st)) as [t0 w] eqn:Hnew.
  cbn [fst] in Hloop. rewrite Hloop in Hcreate.
  set (st2 := State _ _ _) in Hcreate.
  pose proof (_save_tenant_cases P tenant st2) as Hsave.
  destruct (open_tenant_file P tenant) as [f|e'].
  - destruct (dump_tenant tenant) as [data|e''];
      rewrite Hsave in Hcreate; [discriminate|].
    injection Hcreate as <- <-. unfold get_tenant. simpl.
    split; [apply lookup_insert_eq|]. split; [|split; reflexivity].
    intros k Hk. apply lookup_insert_ne. congruence.
  - rewrite Hsave in Hcreate. injection Hcreate as <- <-. unfold get_tenant. simpl.
    split; [apply lookup_insert_eq|]. split; [|split; reflexivity].
    intros k Hk. apply lookup_insert_ne. congruence.
Qed.

End Store.

Lemma update_tenant_effect_witness :
  exists tenant' st',
    TenantManager.update_tenant demo_platform "acme"
      [ ("max_deployments", PJson (JInt 25)); ("max_containers", PJson (JInt 150)) ]
      acme_registry = (Ok (Some tenant'), st')
    /\ TenantManager.get_tenant st' "acme" = Some tenant'
    /\ Tenant.get_field tenant' "max_deployments" = Ok (PJson (JInt 25))
    /\ (exists data, Tenant.to_dict tenant' = Ok (pyvals data)
                     /\ TenantManager.files st' !! "acme.json"
                        = Some (TenantManager.JSON (JDict data)))
    /\ TenantManager.world st' = Env 1 3.
Proof.
  destruct (proj2 (update_tenant_effect demo_platform "acme"
                     [ ("max_deployments", PJson (JInt 25));
                       ("max_containers", PJson (JInt 150)) ] acme_registry)
              (dict_set "updated_at" (PDatetime (Datetime 2026 2 19 5 0 2 0))
                 (dict_set "max_containers" (PJson (JInt 150))
                    (dict_set "max_deployments" (PJson (JInt 25)) acme_tenant)))
              (TenantManager.update_tenant demo_platform "acme"
                 [ ("max_deployments", PJson (JInt 25));
                   ("max_containers", PJson (JInt 150)) ] acme_registry).2)
    as (_ & Hread & (f & data & Hopen & _ & Hdict & Hfile) & Hworld & _).
  - vm_compute. reflexivity.
  - eexists. eexists. split; [vm_compute; reflexivity|]. split; [exact Hread|].
    split; [reflexivity|]. split; [|exact Hworld].
    exists data. split; [exact Hdict|].
    injection Hopen as <-. exact Hfile.
Defined.

Lemma create_tenant_body_persists_witness :
  exists tenant st',
    TenantManager.create_tenant_body demo_platform "Acme" "acme" "" acme_quotas
      (TenantManager.State ∅ ∅ (Env 0 0)) = (Ok tenant, st')
    /\ TenantManager.get_tenant st' "acme" = Some tenant
    /\ Tenant.get_field tenant "slug" = Ok (PJson (JStr "acme"))
    /\ Tenant.get_field tenant "max_deployments" = Ok (PJson (JInt 1))
    /\ is_Some (TenantManager.files st' !! "acme.json")
    /\ TenantManager.world st' = Env 1 2.
Proof.
  destruct (TenantManager.create_tenant_body demo_platform "Acme" "acme" "" acme_quotas
              (TenantManager.State ∅ ∅ (Env 0 0))) as [[tenant|e] st'] eqn:Hcreate;
    [|vm_compute in Hcreate; discriminate].
  destruct (proj2 (create_tenant_body_persists demo_platform "Acme" "acme" "" acme_quotas
                     (TenantManager.State ∅ ∅ (Env 0 0))) tenant st' Hcreate)
    as (_ & Hread & (f & data & Hopen & Hname & _ & Hfiles) & Hslug & _ & _ & Hworld & _).
  assert (Tenant.get_field tenant "slug" = Ok (PJson (JStr "acme"))) as Hs.
  { apply Hslug; simpl; intros [H|[H|[]]]; discriminate. }
  exists tenant, st'. split; [reflexivity|]. split; [exact Hread|]. split; [exact Hs|].
  split.
  { apply (f_equal fst) in Hcreate. vm_compute in Hcreate. injection Hcreate as <-.
    reflexivity. }
  split; [|exact Hworld].
  pose proof (Hname "acme" Hs) as Hf. injection Hf as <-.
  rewrite Hfiles, lookup_insert_eq. eauto.
Defined.

Lemma failed_save_keeps_tenant_witness :
  exists tenant st',
    TenantManager.create_tenant_body demo_platform "A" "a/b" "" []
      (TenantManager.State ∅ ∅ (Env 0 0)) = (Raise (FileNotFoundError "a/b.json"), st')
    /\ TenantManager.get_tenant st' "a/b" = Some tenant
    /\ Tenant.get_field tenant "slug" = Ok (PJson (JStr "a/b"))
    /\ TenantManager.files st' = ∅.
Proof.
  destruct (failed_save_keeps_tenant demo_platform "A" "a/b" "" []
              (TenantManager.State ∅ ∅ (Env 0 0))
              (Tenant.new demo_platform "A" "a/b" "" (Env 0 0)).1
              (FileNotFoundError "a/b.json")
              (TenantManager.create_tenant_body demo_platform "A" "a/b" "" []
                 (TenantManager.State ∅ ∅ (Env 0 0))).2)
    as (Hread & _ & Hopen).
  - reflexivity.
  - reflexivity.
  - vm_compute. reflexivity.
  - eexists. eexists. split; [vm_compute; reflexivity|]. split; [exact Hread|].
    split; [reflexivity|]. destruct Hopen as [_ Hfiles]. exact Hfiles.
Defined.

(** ** Starting a manager over stored files *)

Section Restart.
Import TenantManager.
Variable P : platform.

Lemma elem_of_glob_json (storage : gmap string content) (f : string) (data : content) :
  (f, data) ∈ glob_json storage <->
  storage !! f = Some data /\ endswith ".json" f = true /\ contains "/" f = false.
Proof.
  unfold glob_json. rewrite list_elem_of_filter, elem_of_map_to_list. simpl.
  rewrite Is_true_true, andb_true_iff, negb_true_iff. tauto.
Qed.

Lemma load_each_malformed (tenant_files : list (string * content)) :
  (exists f data, (f, JSON data) ∈ tenant_files /\ forall d, data <> JDict d) ->
  forall tenants w, is_ok (load_each P tenant_files tenants w).1 = false.
Proof.
  induction tenant_files as [|[f0 data0] rest IH]; intros (f & data & Hin & Hbad) tenants w.
  - inversion Hin.
  - cbn [load_each].
    destruct (load_file P data0 tenants w) as [[m|e] w'] eqn:Hload; [|reflexivity].
    apply IH. apply elem_of_cons in Hin as [[= -> <-]|Hin]; [|eauto].
    exfalso. unfold load_file in Hload.
    destruct data; try discriminate. eapply Hbad. reflexivity.
Qed.

(** X18: one stored [.json] file that does not hold a mapping keeps the
    manager from starting: the constructor raises, whatever the other files
    hold.  The loop of [_load_tenants] alone raises on such a directory
    too, so the failing import is not the only obstacle. *)
Theorem init_rejects_malformed_file (storage : gmap string content) (w : env)
    (f : string) (data : json)
    (Hfile : storage !! f = Some (JSON data))
    (Hjson : endswith ".json" f = true)
    (Hbad : forall d, data <> JDict d) :
  is_ok (init P storage w).1 = false
  /\ (contains "/" f = false ->
      forall tenants, is_ok (load_each P (glob_json storage) tenants w).1 = false).
Proof.
  split; [reflexivity|]. intros Hdir tenants.
  apply load_each_malformed. exists f, data. split; [|exact Hbad].
  apply elem_of_glob_json. auto.
Qed.

(** X25: the constructor of the manager never returns: [_load_tenants]
    starts with [from .models import Tenant], which names a module the
    package [multitenant.managers] does not have, so [TenantManager(...)]
    raises [ModuleNotFoundError] over every storage directory, the empty one
    included, before any file is read (no uuid is drawn, the clock is not
    read). *)
Theorem init_import_error (storage : gmap string content) (w : env) :
  init P storage w
  = (Raise (ModuleNotFoundError "docker_compose_manager.multitenant.managers.models"), w)
  /\ forall tenant_files tenants,
       _load_tenants P tenant_files tenants w
       = (Raise (ModuleNotFoundError "docker_compose_manager.multitenant.managers.models"), w).
Proof. split; reflexivity. Qed.

End Restart.

Lemma init_rejects_malformed_file_witness :
  is_ok (TenantManager.init demo_platform
           {[ "acme.json" := TenantManager.JSON (JDict [ ("slug", JStr "acme") ]);
              "notes.json" := TenantManager.JSON (JList [JStr "todo"]) ]} (Env 0 0)).1 = false.
Proof.
  apply (init_rejects_malformed_file demo_platform _ (Env 0 0)
           "notes.json" (JList [JStr "todo"])).
  - reflexivity.
  - reflexivity.
  - intros d. discriminate.
Defined.

(** ** Listing tenants *)

Section Tenants.
Import TenantManager.
Variable P : platform.

Lemma elem_of_list_tenants st (active_only : bool) (x : Tenant.t) :
  x ∈ list_tenants st active_only <->
  (exists k, get_tenant st k = Some x) /\ (active_only = true -> Tenant.active x = true).
Proof.
  assert (x ∈ (map_to_list (_tenants st)).*2 <-> exists k, get_tenant st k = Some x) as Hall.
  { rewrite list_elem_of_fmap. unfold get_tenant. split.
    - intros [[k y] [-> H]]. apply elem_of_map_to_list in H. eauto.
    - intros [k H]. exists (k, x). split; [reflexivity|].
      apply elem_of_map_to_list. exact H. }
  unfold list_tenants. destruct active_only.
  - rewrite list_elem_of_filter, Hall, Is_true_true. tauto.
  - rewrite Hall. split; [intros H; split; [exact H|discriminate]|tauto].
Qed.

Lemma length_list_tenants st : length (list_tenants st false) = size (_tenants st).
Proof. unfold list_tenants. rewrite length_fmap. apply length_map_to_list. Qed.

(** X19: [list_tenants] returns the registered tenants: a tenant is in the
    list exactly when it is held under some slug and, with [active_only], is
    active; without the filter the list is as long as the registry has
    slugs, and the filter never lengthens it. *)
Theorem list_tenants_members st (active_only : bool) (x : Tenant.t) :
  (x ∈ list_tenants st active_only <->
     (exists k, get_tenant st k = Some x)
     /\ (active_only = true -> Tenant.active x = true))
  /\ length (list_tenants st false) = size (_tenants st)
  /\ (length (list_tenants st true) <= length (list_tenants st false))%nat.
Proof.
  split; [apply elem_of_list_tenants|]. split; [apply length_list_tenants|].
  unfold list_tenants. apply length_filter.
Qed.

End Tenants.

(** ** Fields a stored dictionary does not hold *)

Section Defaults.
Variable P : platform.

(** X24: [from_dict] starts from a new default tenant, so, unless the
    dictionary has the key [__dict__], a field the dictionary does not name
    has the default of the dataclass: a new uuid for [id], the clock
    readings of the moment of loading for [created_at] and [updated_at],
    [True] for [active], 10 and 50 for the two limits. *)
Theorem from_dict_defaults (data : list (string * pyval)) (w : env) (x : Tenant.t)
    (Hload : (Tenant.from_dict P data w).1 = Ok x)
    (Hdict : ~ In "__dict__" (keys data)) :
  (~ In "id" (keys data) ->
   Tenant.get_field x "id" = Ok (PJson (JStr (uuid4 P (draws w)))))
  /\ (~ In "created_at" (keys data) ->
      Tenant.get_field x "created_at" = Ok (PDatetime (utcnow P (ticks w))))
  /\ (~ In "updated_at" (keys data) ->
      Tenant.get_field x "updated_at" = Ok (PDatetime (utcnow P (S (ticks w)))))
  /\ (~ In "active" (keys data) ->
      Tenant.get_field x "active" = Ok (PJson (JBool true)) /\ Tenant.active x = true)
  /\ (~ In "max_deployments" (keys data) ->
      Tenant.get_field x "max_deployments" = Ok (PJson (JInt 10)))
  /\ (~ In "max_containers" (keys data) ->
      Tenant.get_field x "max_containers" = Ok (PJson (JInt 50))).
Proof.
  unfold Tenant.from_dict in Hload. cbn [fst] in Hload.
  assert (forall k, ~ In k (keys data) ->
            Tenant.get_field x k = Tenant.get_field (Tenant.new P "" "" "" w).1 k) as Hframe.
  { intros k Hk. apply get_field_ext.
    apply (load_attrs_frame P k data Hk Hdict _ _ Hload). }
  split; [intros Hnot; rewrite (Hframe _ Hnot); reflexivity|].
  split; [intros Hnot; rewrite (Hframe _ Hnot); reflexivity|].
  split; [intros Hnot; rewrite (Hframe _ Hnot); reflexivity|].
  split; [intros Hnot; unfold Tenant.active; rewrite (Hframe _ Hnot); split; reflexivity|].
  split; intros Hnot; rewrite (Hframe _ Hnot); reflexivity.
Qed.

End Defaults.

Lemma from_dict_defaults_witness :
  Tenant.get_field acme_tenant "id" = Ok (PJson (JStr "uuid-0000"))
  /\ Tenant.get_field acme_tenant "created_at" = Ok (PDatetime (Datetime 2026 2 19 5 0 0 0))
  /\ Tenant.get_field acme_tenant "updated_at" = Ok (PDatetime (Datetime 2026 2 19 5 0 1 0))
  /\ Tenant.active acme_tenant = true
  /\ Tenant.get_field acme_tenant "max_deployments" = Ok (PJson (JInt 10))
  /\ Tenant.get_field acme_tenant "max_containers" = Ok (PJson (JInt 50)).
Proof.
  destruct (from_dict_defaults demo_platform
              [ ("name", PJson (JStr "Acme")); ("slug", PJson (JStr "acme")) ]
              (Env 0 0) acme_tenant) as (H1 & H2 & H3 & H4 & H5 & H6).
  - vm_compute. reflexivity.
  - simpl. intuition discriminate.
  - split; [apply H1; simpl; intuition discriminate|].
    split; [apply H2; simpl; intuition discriminate|].
    split; [apply H3; simpl; intuition discriminate|].
    split; [apply H4; simpl; intuition discriminate|].
    split; [apply H5|apply H6]; simpl; intuition discriminate.
Defined.

(** ** Saving and loading a tenant *)

Section RoundTrip.
Import TenantManager.
Variable P : platform.

Lemma loaded_value_plain (key : string) (value : pyval) :
  Tenant.is_timestamp key = false -> Tenant.loaded_value P key value = Ok value.
Proof.
  intros H. unfold Tenant.loaded_value. rewrite H. destruct value as [[]|]; reflexivity.
Qed.

(** One turn of the loop of [from_dict] for a field of the instance. *)
Lemma load_attrs_field (x : Tenant.t) (key : string) (j : json)
    (data : list (string * pyval)) :
  Tenant.hasattr P x key = true -> Tenant.is_timestamp key = false ->
  dict_get key Tenant.descriptors = None ->
  Tenant.load_attrs P x ((key, PJson j) :: data)
  = Tenant.load_attrs P (dict_set key (PJson j) x) data.
Proof.
  intros Hhas Hts Hd. cbn [Tenant.load_attrs]. rewrite Hhas, (loaded_value_plain _ _ Hts).
  unfold Tenant.setattr. rewrite Hd. reflexivity.
Qed.

Lemma load_attrs_timestamp (x : Tenant.t) (key : string) (d : datetime)
    (data : list (string * pyval)) :
  Tenant.hasattr P x key = true -> Tenant.is_timestamp key = true ->
  dict_get key Tenant.descriptors = None ->
  fromisoformat P (isoformat d) = Some d ->
  Tenant.load_attrs P x ((key, PJson (JStr (isoformat d))) :: data)
  = Tenant.load_attrs P (dict_set key (PDatetime d) x) data.
Proof.
  intros Hhas Hts Hd Hread. cbn [Tenant.load_attrs]. rewrite Hhas.
  unfold Tenant.loaded_value. rewrite Hts, Hread.
  unfold Tenant.setattr. rewrite Hd. reflexivity.
Qed.

(** X28: what [_save_tenant] writes for a tenant, [from_dict] reads back:
    when [json.dump(tenant.to_dict(), ...)] succeeds and [fromisoformat]
    reads the two timestamps as [isoformat] wrote them, loading the written
    dictionary gives a tenant with the same thirteen fields, whose dump is
    the dictionary again.  Loading draws one uuid and reads the clock twice
    for the defaults it then replaces. *)
Theorem save_then_load (x : Tenant.t) (data : list (string * json))
    (c u : datetime) (w : env)
    (Hdump : dump_tenant x = Ok data)
    (Hc : Tenant.get_field x "created_at" = Ok (PDatetime c))
    (Hu : Tenant.get_field x "updated_at" = Ok (PDatetime u))
    (Hrc : fromisoformat P (isoformat c) = Some c)
    (Hru : fromisoformat P (isoformat u) = Some u) :
  exists x',
    Tenant.from_dict P (pyvals data) w = (Ok x', Env (S (draws w)) (S (S (ticks w))))
    /\ keys x' = keys data
    /\ (forall key, In key (keys data) -> Tenant.get_field x' key = Tenant.get_field x key)
    /\ dump_tenant x' = Ok data.
Proof.
  pose proof (dump_tenant_to_dict x data Hdump) as Hto.
  assert (dict_has "to_dict" x = false) as Hmethod.
  { unfold dump_tenant, Tenant.call_to_dict in Hdump.
    destruct (dict_has "to_dict" x); [discriminate|reflexivity]. }
  unfold Tenant.to_dict in Hto. rewrite Hc, Hu in Hto.
  destruct (Tenant.get_field x "id") as [v1|] eqn:H1; [|discriminate].
  destruct (Tenant.get_field x "name") as [v2|] eqn:H2; [|discriminate].
  destruct (Tenant.get_field x "slug") as [v3|] eqn:H3; [|discriminate].
  destruct (Tenant.get_field x "description") as [v4|] eqn:H4; [|discriminate].
  destruct (Tenant.get_field x "active") as [v5|] eqn:H5; [|discriminate].
  destruct (Tenant.get_field x "max_deployments") as [v6|] eqn:H6; [|discriminate].
  destruct (Tenant.get_field x "max_containers") as [v7|] eqn:H7; [|discriminate].
  destruct (Tenant.get_field x "max_cpu") as [v8|] eqn:H8; [|discriminate].
  destruct (Tenant.get_field x "max_memory") as [v9|] eqn:H9; [|discriminate].
  destruct (Tenant.get_field x "config") as [v10|] eqn:H10; [|discriminate].
  destruct (Tenant.get_field x "metadata") as [v11|] eqn:H11; [|discriminate].
  cbn [mbind result_bind Tenant.isoformat_of] in Hto. injection Hto as Hto.
  do 13 (destruct data as [|[? ?] data]; [discriminate|]).
  destruct data; [|discriminate].
  cbn [pyvals map fst snd] in Hto. simplify_eq.
  unfold Tenant.from_dict, Tenant.new. cbn [pyvals map fst snd].
  repeat first
    [ rewrite load_attrs_field by reflexivity
    | rewrite load_attrs_timestamp by (reflexivity || assumption) ].
  cbn [Tenant.load_attrs]. eexists. split; [reflexivity|].
  split; [reflexivity|]. split.
  - intros key Hin. cbn [keys map fst] in Hin.
    repeat (destruct Hin as [<-|Hin]; [symmetry; assumption|]). contradiction.
  - reflexivity.
Qed.

End RoundTrip.

Lemma save_then_load_witness :
  exists data x',
    TenantManager.dump_tenant acme_tenant = Ok data
    /\ Tenant.from_dict demo_platform (pyvals data) (Env 1 2) = (Ok x', Env 2 4)
    /\ x' = acme_tenant.
Proof.
  destruct (TenantManager.dump_tenant acme_tenant) as [data|e] eqn:Hdump;
    [|vm_compute in Hdump; discriminate].
  destruct (save_then_load demo_platform acme_tenant data
              (Datetime 2026 2 19 5 0 0 0) (Datetime 2026 2 19 5 0 1 0) (Env 1 2))
    as (x' & Hload & _ & _ & _).
  - exact Hdump.
  - reflexivity.
  - reflexivity.
  - reflexivity.
  - reflexivity.
  - exists data, x'. split; [reflexivity|]. split; [exact Hload|].
    vm_compute in Hdump. injection Hdump as <-.
    vm_compute in Hload. injection Hload as <-. reflexivity.
Defined.
